(** * Swift-Scraper: the freshness-gated crawl of [swift_scraper.py]

    A shallow embedding of the scraper (normaliser, identity lookup,
    freshness decision, pagination walk, the two sinks, orchestrator) and
    the properties of its specification.

    Conventions.
    - A Python [str] is a [string]; each [ascii] stands for the code point
      of the same number, so the texts of the model are those of code points
      below 256.
    - The dictionaries that are written in insertion order (rows and
      documents) are association lists; the freshness ledger is a [gmap].
    - Documents are mutable objects shared by the batch, the document store
      writer and the accumulator: they live in a heap and are named by their
      addresses.
    - The libraries and services whose answers the program cannot determine
      (HTTP requests, the ISO-8601 parser, the clock, the document store)
      are oracles, gathered in the record [world].
    - [print] is not modelled. *)

From Stdlib Require Import ZArith Ascii String List Bool Lia.
From stdpp Require Import gmap strings list.

Local Open Scope string_scope.
Local Open Scope list_scope.
Local Open Scope nat_scope.

(** ** Python string primitives, on lists of characters *)

Module PyStr.

Definition chars (s : string) : list ascii := list_ascii_of_string s.
Definition str (l : list ascii) : string := string_of_list_ascii l.

(** [str.isspace] on one character (code points below 256):
    TAB LF VT FF CR, FS GS RS US, SPACE, NEL and NBSP. *)
Definition isspace (c : ascii) : bool :=
  let n := nat_of_ascii c in
  ((9 <=? n) && (n <=? 13)) || ((28 <=? n) && (n <=? 32))
  || (n =? 133) || (n =? 160).

Definition mem (cs : list ascii) (c : ascii) : bool :=
  existsb (Ascii.eqb c) cs.

Fixpoint lstrip (p : ascii -> bool) (l : list ascii) : list ascii :=
  match l with
  | [] => []
  | c :: l' => if p c then lstrip p l' else l
  end.

Definition rstrip (p : ascii -> bool) (l : list ascii) : list ascii :=
  rev (lstrip p (rev l)).

(** [s.strip()] is [strip_by isspace]; [s.strip(cs)] is [strip_by (mem cs)]. *)
Definition strip_by (p : ascii -> bool) (l : list ascii) : list ascii :=
  rstrip p (lstrip p l).

(** [s.replace(old, new)] for one-character [old] and [new]. *)
Definition replace_char (old new : ascii) (l : list ascii) : list ascii :=
  map (fun c => if Ascii.eqb c old then new else c) l.

Definition cons_word (w : list ascii) (ws : list (list ascii)) :=
  match w with [] => ws | _ :: _ => w :: ws end.

(** [words l] is the word that [l] starts with (empty when [l] starts
    with white space) and the words after it. *)
Fixpoint words (l : list ascii) : list ascii * list (list ascii) :=
  match l with
  | [] => ([], [])
  | c :: l' =>
      let '(w, ws) := words l' in
      if isspace c then ([], cons_word w ws) else (c :: w, ws)
  end.

(** [s.split()]: the maximal runs of non-space characters. *)
Definition split_ws (l : list ascii) : list (list ascii) :=
  let '(w, ws) := words l in cons_word w ws.

(** [sep.join(ws)] *)
Fixpoint join (sep : list ascii) (ws : list (list ascii)) : list ascii :=
  match ws with
  | [] => []
  | w :: ws' =>
      match ws' with
      | [] => w
      | _ :: _ => w ++ sep ++ join sep ws'
      end
  end.

(** [s.split(sep)[0]] for a one-character [sep]: the text before the
    first separator. *)
Fixpoint before_first (sep : ascii) (l : list ascii) : list ascii :=
  match l with
  | [] => []
  | c :: l' => if Ascii.eqb c sep then [] else c :: before_first sep l'
  end.

End PyStr.

(** ** Identity normaliser *)

Definition TAB : ascii := ascii_of_nat 9.
Definition LF : ascii := ascii_of_nat 10.
Definition CR : ascii := ascii_of_nat 13.

(** The argument of [s.strip("/_. \t\r\n")]. *)
Definition trim_set : list ascii :=
  ["/"; "_"; "."; " "; TAB; CR; LF]%char.

Definition normalize_chars (l : list ascii) : list ascii :=
  let s := PyStr.strip_by PyStr.isspace l in
  let s := PyStr.strip_by (PyStr.mem trim_set) s in
  let s := PyStr.replace_char "-" " " (PyStr.replace_char "_" " " s) in
  PyStr.join [" "%char] (PyStr.split_ws s).

(** [if not raw] is true of the empty text only; [str(raw)] is [raw]. *)
Definition normalize_country_name (raw : string) : string :=
  if String.eqb raw "" then ""
  else PyStr.str (normalize_chars (PyStr.chars raw)).

(** A text whose first and last characters are neither a slash nor a dot. *)
Definition is_slash_dot (c : ascii) : bool :=
  Ascii.eqb c "/" || Ascii.eqb c ".".

Definition edge_clean_chars (l : list ascii) : bool :=
  match l with
  | [] => true
  | c :: _ => negb (is_slash_dot c) && negb (is_slash_dot (List.last l c))
  end.

Definition edge_clean (s : string) : bool := edge_clean_chars (PyStr.chars s).

(** ** Vocabulary of the statements about texts *)

(** A word of [split_ws]: not empty, and without white space. *)
Definition word (w : list ascii) : Prop :=
  w <> [] /\ Forall (fun c => PyStr.isspace c = false) w.

(** The first and the last character of a text fail [p]. *)
Definition edges_ok (p : ascii -> bool) (l : list ascii) : bool :=
  match l with
  | [] => true
  | c :: _ => negb (p c) && negb (p (List.last l c))
  end.

(** Neither an underscore nor a hyphen. *)
Definition plain (c : ascii) : Prop := c <> "_"%char /\ c <> "-"%char.

(** The length of the words of a text, each counted with one separator. *)
Fixpoint weight (ws : list (list ascii)) : nat :=
  match ws with
  | [] => 0
  | w :: ws' => S (length w) + weight ws'
  end.

(** ** Dates and times: the part of [datetime] the scraper uses *)

Module DT.

(** A [datetime] by its fields; [tzinfo] is the UTC offset in seconds of an
    aware value and [None] for a naive one. *)
Record datetime := mk {
  year : Z; month : Z; day : Z;
  hour : Z; minute : Z; second : Z; microsecond : Z;
  tzinfo : option Z
}.

Definition is_leap (y : Z) : bool :=
  ((y mod 4 =? 0) && (negb (y mod 100 =? 0) || (y mod 400 =? 0)))%Z.

Definition days_before_year (y : Z) : Z :=
  let y1 := (y - 1)%Z in
  (y1 * 365 + y1 / 4 - y1 / 100 + y1 / 400)%Z.

Definition days_in_month (y m : Z) : Z :=
  if (m =? 2)%Z then (if is_leap y then 29 else 28)%Z
  else if ((m =? 4) || (m =? 6) || (m =? 9) || (m =? 11))%Z then 30%Z
  else 31%Z.

Definition days_before_month (y m : Z) : Z :=
  fold_right Z.add 0%Z
    (map (fun k => days_in_month y (Z.of_nat k)) (seq 1 (Z.to_nat m - 1))).

(** [toordinal]: day 1 is 0001-01-01. *)
Definition ymd2ord (y m d : Z) : Z :=
  (days_before_year y + days_before_month y m + d)%Z.

(** Microseconds of the wall-clock reading since the start of day 0. *)
Definition wall_us (t : datetime) : Z :=
  (((ymd2ord (year t) (month t) (day t) * 86400
     + hour t * 3600 + minute t * 60 + second t) * 1000000)
   + microsecond t)%Z.

(** [a - b] as a [timedelta] in microseconds. Two naive or two aware values
    subtract; mixing a naive with an aware one raises [TypeError], here
    [None]. *)
Definition sub (a b : datetime) : option Z :=
  match tzinfo a, tzinfo b with
  | None, None => Some (wall_us a - wall_us b)%Z
  | Some oa, Some ob =>
      Some (wall_us a - wall_us b + (ob - oa) * 1000000)%Z
  | _, _ => None
  end.

(** [timedelta(weeks=n)] in microseconds. *)
Definition weeks (n : Z) : Z := (n * 7 * 86400 * 1000000)%Z.

(** [datetime.now(timezone.utc)] is aware, with offset zero. *)
Definition as_utc (t : datetime) : datetime :=
  mk (year t) (month t) (day t) (hour t) (minute t) (second t)
     (microsecond t) (Some 0%Z).

Definition digit (n : Z) : ascii :=
  ascii_of_nat (48 + Z.to_nat (n mod 10)).

(** ["%0<width>d"] for a number of at most [width] digits. *)
Fixpoint zpad (width : nat) (n : Z) : string :=
  match width with
  | O => ""
  | S k => zpad k (n / 10) +:+ String (digit n) ""
  end.

Definition format_offset (off : Z) : string :=
  let a := Z.abs off in
  (if (off <? 0)%Z then "-" else "+")
  +:+ zpad 2 (a / 3600) +:+ ":" +:+ zpad 2 (a / 60 mod 60)
  +:+ (if (a mod 60 =? 0)%Z then "" else ":" +:+ zpad 2 (a mod 60)).

(** [t.isoformat(sep)] *)
Definition isoformat_sep (sep : string) (t : datetime) : string :=
  zpad 4 (year t) +:+ "-" +:+ zpad 2 (month t) +:+ "-" +:+ zpad 2 (day t)
  +:+ sep
  +:+ zpad 2 (hour t) +:+ ":" +:+ zpad 2 (minute t) +:+ ":"
  +:+ zpad 2 (second t)
  +:+ (if (microsecond t =? 0)%Z then "" else "." +:+ zpad 6 (microsecond t))
  +:+ match tzinfo t with
      | None => ""
      | Some off => format_offset off
      end.

Definition isoformat (t : datetime) : string := isoformat_sep "T" t.

(** [str(t)] *)
Definition to_str (t : datetime) : string := isoformat_sep " " t.

(** *** A parser for the texts [isoformat] writes

    [YYYY-MM-DD], optionally followed by one separator character and
    [HH:MM:SS], an optional fraction of three or six digits and an optional
    offset [+HH:MM] or [-HH:MM].  Every CPython [datetime.fromisoformat]
    reads these texts this way; [None] stands for [ValueError]. *)

Definition digit_val (c : ascii) : option Z :=
  let n := nat_of_ascii c in
  if (48 <=? n) && (n <=? 57) then Some (Z.of_nat (n - 48)) else None.

Fixpoint number (l : list ascii) (acc : Z) : option Z :=
  match l with
  | [] => Some acc
  | c :: l' =>
      match digit_val c with
      | Some d => number l' (acc * 10 + d)%Z
      | None => None
      end
  end.

(** Exactly [n] digits, then the rest. *)
Definition digits (n : nat) (l : list ascii) : option (Z * list ascii) :=
  if length (take n l) =? n
  then z ← number (take n l) 0%Z; Some (z, drop n l)
  else None.

Definition expect (c : ascii) (l : list ascii) : option (list ascii) :=
  match l with
  | c' :: l' => if Ascii.eqb c c' then Some l' else None
  | [] => None
  end.

Definition in_range (lo hi x : Z) : bool := ((lo <=? x) && (x <=? hi))%Z.

Definition parse_offset (l : list ascii) : option (option Z) :=
  match l with
  | [] => Some None
  | c :: l1 =>
      sign ← (if Ascii.eqb c "+" then Some 1%Z
              else if Ascii.eqb c "-" then Some (-1)%Z else None);
      '(hh, l2) ← digits 2 l1;
      l3 ← expect ":" l2;
      '(mm, l4) ← digits 2 l3;
      match l4 with
      | [] =>
          if in_range 0 23 hh && in_range 0 59 mm
          then Some (Some (sign * (hh * 3600 + mm * 60))%Z)
          else None
      | _ :: _ => None
      end
  end.

Definition parse_fraction (l : list ascii) : option (Z * list ascii) :=
  match l with
  | c :: l1 =>
      if Ascii.eqb c "." then
        match digits 6 l1 with
        | Some r => Some r
        | None => '(ms, l2) ← digits 3 l1; Some ((ms * 1000)%Z, l2)
        end
      else Some (0%Z, l)
  | [] => Some (0%Z, l)
  end.

Definition parse_isoformat (s : string) : option datetime :=
  let l := list_ascii_of_string s in
  '(y, l) ← digits 4 l;
  l ← expect "-" l;
  '(m, l) ← digits 2 l;
  l ← expect "-" l;
  '(d, l) ← digits 2 l;
  if negb (in_range 1 9999 y && in_range 1 12 m
           && in_range 1 (days_in_month y m) d)
  then None
  else
    match l with
    | [] => Some (mk y m d 0 0 0 0 None)
    | _ :: l =>
        '(hh, l) ← digits 2 l;
        l ← expect ":" l;
        '(mi, l) ← digits 2 l;
        l ← expect ":" l;
        '(ss, l) ← digits 2 l;
        '(us, l) ← parse_fraction l;
        tz ← parse_offset l;
        if in_range 0 23 hh && in_range 0 59 mi && in_range 0 59 ss
        then Some (mk y m d hh mi ss us tz)
        else None
    end.

End DT.

(** ** Values and dictionaries *)

(** The values a document field can hold. *)
Inductive pyval :=
| VNone
| VStr (s : string)
| VDateTime (t : DT.datetime)
| VObjectId (hex : string).

(** A dictionary in insertion order. *)
Definition dict : Type := list (string * pyval).

Fixpoint dict_get (k : string) (d : dict) : option pyval :=
  match d with
  | [] => None
  | (k', v) :: d' => if String.eqb k k' then Some v else dict_get k d'
  end.

Definition dict_has (k : string) (d : dict) : bool :=
  match dict_get k d with Some _ => true | None => false end.

(** [d[k] = v]: an existing key keeps its place. *)
Fixpoint dict_set (k : string) (v : pyval) (d : dict) : dict :=
  match d with
  | [] => [(k, v)]
  | (k', v') :: d' =>
      if String.eqb k k' then (k', v) :: d' else (k', v') :: dict_set k v d'
  end.

(** [d.setdefault(k, v)] *)
Definition dict_setdefault (k : string) (v : pyval) (d : dict) : dict :=
  if dict_has k d then d else dict_set k v d.

(** [{**d, **more}] *)
Definition dict_update (d more : dict) : dict :=
  fold_left (fun acc kv => dict_set (fst kv) (snd kv) acc) more d.

Definition of_opt (o : option string) : pyval :=
  match o with Some s => VStr s | None => VNone end.

(** Python truth of a text and of an optional text. *)
Definition truthy_str (s : string) : bool := negb (String.eqb s "").

Definition truthy (o : option string) : bool :=
  match o with Some s => truthy_str s | None => false end.

(** [json.dump(..., default=str)]: a value that JSON cannot hold is written
    as its [str]. *)
Definition json_default (v : pyval) : pyval :=
  match v with
  | VDateTime t => VStr (DT.to_str t)
  | VObjectId hex => VStr hex
  | _ => v
  end.

Definition json_doc (d : dict) : dict :=
  map (fun kv => (fst kv, json_default (snd kv))) d.

(** The fields the document store writer adds to a document. *)
Definition store_keys : list string := ["createdAt"; "updatedAt"; "_id"].

Definition is_store_key (k : string) : bool :=
  existsb (String.eqb k) store_keys.

(** A document without the fields the store writer adds. *)
Definition base_fields (d : dict) : dict :=
  filter (fun kv => is_store_key (fst kv) = false) d.

(** ** The outside world *)

(** What the selectors of the scraper find in a fetched page. *)
Record soup := {
  anchors : list (option string * string);
    (* [ol > li > a]: the [href] attribute and the text of each link *)
  next_link : option (option string);
    (* [span.next > a], and its [href] attribute, when there is one *)
  names : list string;      (* [td.table-name] *)
  swifts : list string;     (* [td.table-swift] *)
  cities : list string;     (* [td.table-city] *)
  branches : list string    (* [td.table-branch] *)
}.

(** The [name] member of a candidate of the identity service. *)
Inductive name_field :=
| NameMissing
| NameObject (common : option string)
| NameNotObject.

(** One element of the identity service's answer. *)
Inductive candidate :=
| Candidate (cca2 cca3 : option string) (name : name_field)
| NotAnObject.

(** What [resp.json()] gives. *)
Inductive json_body :=
| BadJson
| JsonList (l : list candidate)
| JsonOther.

Record response := {
  status_code : Z;   (* [resp.status_code] *)
  body : json_body
}.

(** Whether [resp.raise_for_status()] raises: it does for the client and
    server error statuses, 400 to 599, and for no other status. *)
Definition status_raises (resp : response) : bool :=
  ((400 <=? status_code resp) && (status_code resp <? 600))%Z.

(** The answers of the libraries and services the scraper calls. The number
    is the count of earlier calls of the same kind, so an answer may change
    from call to call. *)
Record world := {
  fromisoformat : string -> option DT.datetime;
    (* [datetime.fromisoformat]; [None] is [ValueError] *)
  clock : nat -> DT.datetime;
  fetch : nat -> string -> option soup;
    (* [requests.get], [raise_for_status] and the HTML parser; [None] when
       one of them raises *)
  restcountries : nat -> string -> option response;
    (* [requests.get] of the lookup; [None] when it raises *)
  mongo_ping : bool;
  object_id : nat -> string;
    (* the [ObjectId] the driver gives the document at a heap address *)
  insert_fails : nat -> list dict -> bool
}.

(** ** Program state *)

Inductive ledger_file :=
| Unreadable
| Ledger (m : gmap string string).

Record state := {
  heap : list dict;               (* the document objects *)
  all_docs : list nat;            (* the accumulator: references into [heap] *)
  freshness : gmap string string; (* the ledger of the run *)
  requests : list string;         (* pages requested, oldest first *)
  lookups : list string;          (* names sent to the identity service *)
  store : list (list dict);       (* batches the document store accepted *)
  store_calls : nat;
  clock_reads : nat;
  slept : nat;                    (* seconds of [time.sleep] *)
  data_file : option (list dict); (* [swift_data.json] *)
  freshness_file : option ledger_file   (* [swift_freshness.json] *)
}.

Definition set_heap (f : list dict -> list dict) (s : state) : state :=
  {| heap := f (heap s); all_docs := all_docs s; freshness := freshness s;
     requests := requests s; lookups := lookups s; store := store s;
     store_calls := store_calls s; clock_reads := clock_reads s;
     slept := slept s; data_file := data_file s;
     freshness_file := freshness_file s |}.

Definition set_all_docs (f : list nat -> list nat) (s : state) : state :=
  {| heap := heap s; all_docs := f (all_docs s); freshness := freshness s;
     requests := requests s; lookups := lookups s; store := store s;
     store_calls := store_calls s; clock_reads := clock_reads s;
     slept := slept s; data_file := data_file s;
     freshness_file := freshness_file s |}.

Definition set_freshness (f : gmap string string -> gmap string string)
    (s : state) : state :=
  {| heap := heap s; all_docs := all_docs s; freshness := f (freshness s);
     requests := requests s; lookups := lookups s; store := store s;
     store_calls := store_calls s; clock_reads := clock_reads s;
     slept := slept s; data_file := data_file s;
     freshness_file := freshness_file s |}.

Definition set_requests (f : list string -> list string) (s : state) : state :=
  {| heap := heap s; all_docs := all_docs s; freshness := freshness s;
     requests := f (requests s); lookups := lookups s; store := store s;
     store_calls := store_calls s; clock_reads := clock_reads s;
     slept := slept s; data_file := data_file s;
     freshness_file := freshness_file s |}.

Definition set_lookups (f : list string -> list string) (s : state) : state :=
  {| heap := heap s; all_docs := all_docs s; freshness := freshness s;
     requests := requests s; lookups := f (lookups s); store := store s;
     store_calls := store_calls s; clock_reads := clock_reads s;
     slept := slept s; data_file := data_file s;
     freshness_file := freshness_file s |}.

Definition set_store (f : list (list dict) -> list (list dict))
    (s : state) : state :=
  {| heap := heap s; all_docs := all_docs s; freshness := freshness s;
     requests := requests s; lookups := lookups s; store := f (store s);
     store_calls := store_calls s; clock_reads := clock_reads s;
     slept := slept s; data_file := data_file s;
     freshness_file := freshness_file s |}.

Definition count_store_call (s : state) : state :=
  {| heap := heap s; all_docs := all_docs s; freshness := freshness s;
     requests := requests s; lookups := lookups s; store := store s;
     store_calls := S (store_calls s); clock_reads := clock_reads s;
     slept := slept s; data_file := data_file s;
     freshness_file := freshness_file s |}.

Definition tick (s : state) : state :=
  {| heap := heap s; all_docs := all_docs s; freshness := freshness s;
     requests := requests s; lookups := lookups s; store := store s;
     store_calls := store_calls s; clock_reads := S (clock_reads s);
     slept := slept s; data_file := data_file s;
     freshness_file := freshness_file s |}.

Definition add_slept (n : nat) (s : state) : state :=
  {| heap := heap s; all_docs := all_docs s; freshness := freshness s;
     requests := requests s; lookups := lookups s; store := store s;
     store_calls := store_calls s; clock_reads := clock_reads s;
     slept := slept s + n; data_file := data_file s;
     freshness_file := freshness_file s |}.

Definition set_data_file (c : list dict) (s : state) : state :=
  {| heap := heap s; all_docs := all_docs s; freshness := freshness s;
     requests := requests s; lookups := lookups s; store := store s;
     store_calls := store_calls s; clock_reads := clock_reads s;
     slept := slept s; data_file := Some c;
     freshness_file := freshness_file s |}.

Definition set_freshness_file (m : gmap string string) (s : state) : state :=
  {| heap := heap s; all_docs := all_docs s; freshness := freshness s;
     requests := requests s; lookups := lookups s; store := store s;
     store_calls := store_calls s; clock_reads := clock_reads s;
     slept := slept s; data_file := data_file s;
     freshness_file := Some (Ledger m) |}.

(** ** The monad of the program: state, exceptions and fuel *)

Inductive exn :=
| ConnectionError | HTTPError | JSONDecodeError
| AttributeError | TypeError | StoreError.

(** [Raise] keeps the state reached: Python's mutations are not undone by
    an exception. [OutOfFuel] marks a run cut short by the bound on loop
    iterations; no handler catches it. *)
Inductive outcome (A : Type) :=
| Ok (a : A)
| Raise (e : exn)
| OutOfFuel.
Arguments Ok {A} a.
Arguments Raise {A} e.
Arguments OutOfFuel {A}.

Definition M (A : Type) : Type := state -> outcome A * state.

#[global] Instance M_ret : MRet M := fun A a s => (Ok a, s).

#[global] Instance M_bind : MBind M := fun A B f m s =>
  match m s with
  | (Ok a, s') => f a s'
  | (Raise e, s') => (Raise e, s')
  | (OutOfFuel, s') => (OutOfFuel, s')
  end.

Definition raise {A} (e : exn) : M A := fun s => (Raise e, s).
Definition out_of_fuel {A} : M A := fun s => (OutOfFuel, s).
Definition gets {A} (f : state -> A) : M A := fun s => (Ok (f s), s).
Definition modify (f : state -> state) : M unit := fun s => (Ok tt, f s).

(** [try: m  except Exception: h] *)
Definition catch {A} (m : M A) (h : exn -> M A) : M A := fun s =>
  match m s with
  | (Raise e, s') => h e s'
  | r => r
  end.

(** [for x in l: f x] *)
Fixpoint for_each {A} (l : list A) (f : A -> M unit) : M unit :=
  match l with
  | [] => mret tt
  | x :: l' => f x ;; for_each l' f
  end.

(** ** The scraper *)

Definition BASE_URL : string := "https://www.theswiftcodes.com".
Definition BROWSE_URL : string := BASE_URL +:+ "/browse-by-country/".
Definition FRESHNESS_WEEKS : Z := 4.

(** [datetime.now(timezone.utc)] *)
Definition utcnow (w : world) : M DT.datetime := fun s =>
  (Ok (DT.as_utc (clock w (clock_reads s))), tick s).

Definition load_freshness : M (gmap string string) := fun s =>
  match freshness_file s with
  | None => (Ok ∅, s)
  | Some (Ledger m) => (Ok m, s)
  | Some Unreadable => (Raise JSONDecodeError, s)
  end.

Definition save_freshness (data : gmap string string) : M unit :=
  modify (set_freshness_file data).

(** The [try] block of [lookup_iso]: [Some] is its [return], [None] is
    falling out of the [if]. *)
Definition lookup_iso_try (w : world) (country_name : string)
    : M (option (option string * option string * option string)) :=
  n ← gets (fun s => length (lookups s));
  modify (set_lookups (fun l => l ++ [country_name])) ;;
  match restcountries w n country_name with
  | None => raise ConnectionError
  | Some resp =>
      if status_raises resp then raise HTTPError
      else
        match body resp with
        | BadJson => raise JSONDecodeError
        | JsonOther => mret None
        | JsonList [] => mret None
        | JsonList (c :: _) =>
            match c with
            | NotAnObject => raise AttributeError
            | Candidate cca2 cca3 name =>
                match name with
                | NameNotObject => raise AttributeError
                | NameMissing => mret (Some (cca2, cca3, None))
                | NameObject common => mret (Some (cca2, cca3, common))
                end
            end
        end
  end.

Definition lookup_iso (w : world) (country_name : string)
    : M (option string * option string * option string) :=
  if negb (truthy_str country_name) then mret (None, None, None)
  else
    r ← catch (lookup_iso_try w country_name) (fun _ => mret None);
    match r with
    | Some found => mret found
    | None => mret (None, None, None)
    end.

Definition should_scrape (w : world) (iso2 : option string)
    (freshness : gmap string string) : M (bool * string) :=
  match iso2 with
  | None | Some "" => mret (true, "No iso2 code; defaulting to scrape.")
  | Some code =>
      match freshness !! code with
      | None | Some "" => mret (true, "No previous scrape recorded.")
      | Some last_str =>
          match fromisoformat w last_str with
          | None =>
              mret (true, "Invalid stored date '" +:+ last_str
                          +:+ "', scraping.")
          | Some last_dt =>
              now ← utcnow w;
              match DT.sub now last_dt with
              | None => raise TypeError
              | Some age =>
                  if (age <? DT.weeks FRESHNESS_WEEKS)%Z
                  then mret (false, "Scraped recently at "
                                    +:+ DT.isoformat last_dt +:+ ".")
                  else mret (true, "Data stale; last scrape at "
                                   +:+ DT.isoformat last_dt +:+ ".")
              end
          end
      end
  end.

Definition fetch_html (w : world) (url : string) : M soup :=
  n ← gets (fun s => length (requests s));
  modify (set_requests (fun l => l ++ [url])) ;;
  match fetch w n url with
  | Some page => mret page
  | None => raise HTTPError
  end.

(** The links of the directory page that have an [href]. *)
Definition links_of (page : soup) : list (string * string) :=
  omap (fun a => match fst a with
                 | Some href =>
                     if truthy_str href then Some (href, snd a) else None
                 | None => None
                 end) (anchors page).

Definition get_country_links (w : world) : M (list (string * string)) :=
  page ← fetch_html w BROWSE_URL;
  mret (links_of page).

(** The rows of a page: the four columns zipped up to the shortest. *)
Fixpoint zip_rows (ns ss cs bs : list string) : list dict :=
  match ns, ss, cs, bs with
  | n :: ns', s :: ss', c :: cs', b :: bs' =>
      [("name", VStr n); ("swift_code", VStr s);
       ("city", VStr c); ("branch", VStr b)]
      :: zip_rows ns' ss' cs' bs'
  | _, _, _, _ => []
  end.

Definition page_rows (page : soup) : list dict :=
  zip_rows (names page) (swifts page) (cities page) (branches page).

Definition page_next (page : soup) : option string :=
  match next_link page with
  | Some href => href
  | None => None
  end.

Definition parse_country_page (w : world) (path : string)
    : M (list dict * option string) :=
  page ← fetch_html w (BASE_URL +:+ path);
  mret (page_rows page, page_next page).

(** The enriched document of a row. *)
Definition make_doc (iso2 iso3 : option string) (country_name path : string)
    (row : dict) : dict :=
  dict_update
    [("iso_code", of_opt iso2); ("iso3", of_opt iso3);
     ("country", VStr country_name); ("page", VStr path)]
    row.

(** Creating dictionary objects: they are put on the heap and named by
    their addresses. *)
Definition new_dicts (ds : list dict) : M (list nat) := fun s =>
  (Ok (seq (length (heap s)) (length ds)), set_heap (fun h => h ++ ds) s).

(** Mutating the dictionary at an address. *)
Definition update_dict (r : nat) (f : dict -> dict) : M unit :=
  modify (set_heap (alter f r)).

(** [coll.insert_many(docs)]: the driver gives every document that has none
    an [_id], then sends the batch. *)
Definition insert_many (w : world) (docs : list nat) : M unit :=
  for_each docs (fun r =>
    update_dict r (dict_setdefault "_id" (VObjectId (object_id w r)))) ;;
  n ← gets store_calls;
  batch ← gets (fun s => map (fun r => heap s !!! r) docs);
  modify count_store_call ;;
  if insert_fails w n batch then raise StoreError
  else modify (set_store (fun st => st ++ [batch])).

Definition save_documents_mongo (w : world) (docs : list nat) : M unit :=
  match docs with
  | [] => mret tt
  | _ :: _ =>
      now ← utcnow w;
      for_each docs (fun r =>
        update_dict r (fun d =>
          dict_set "updatedAt" (VDateTime now)
            (dict_setdefault "createdAt" (VDateTime now) d))) ;;
      insert_many w docs
  end.

(** One turn of the [while] loop of [scrape_country]; its result is the
    next value of [current_path]. *)
Definition scrape_page (w : world) (coll : bool) (iso2 iso3 : option string)
    (country_name current_path : string) : M (option string) :=
  '(rows, next_href) ← parse_country_page w current_path;
  docs ← new_dicts (map (make_doc iso2 iso3 country_name current_path) rows);
  (if coll
   then catch (save_documents_mongo w docs) (fun _ => mret tt)
   else mret tt) ;;
  modify (set_all_docs (fun a => a ++ docs)) ;;
  modify (add_slept 1) ;;
  mret next_href.

(** [while current_path: ...], with a bound on the number of turns. *)
Fixpoint walk (w : world) (coll : bool) (iso2 iso3 : option string)
    (country_name : string) (fuel : nat) (current_path : option string)
    : M unit :=
  match current_path with
  | None | Some "" => mret tt
  | Some path =>
      match fuel with
      | O => out_of_fuel
      | S fuel' =>
          next_href ← scrape_page w coll iso2 iso3 country_name path;
          walk w coll iso2 iso3 country_name fuel' next_href
      end
  end.

(** The name looked up for a partition: the text of [country_href] before
    its first underscore, or the label when that text is empty. *)
Definition derive_country_name (country_href country_label : string)
    : string :=
  let raw_country_from_href :=
    PyStr.str (PyStr.before_first "_"
      (PyStr.strip_by (PyStr.mem ["/"%char]) (PyStr.chars country_href))) in
  normalize_country_name
    (if truthy_str raw_country_from_href then raw_country_from_href
     else country_label).

(** [scrape_country] from the [while] loop on: the walk from
    [current_path], then the update of the ledger. *)
Definition scrape_from (w : world) (coll : bool) (iso2 iso3 : option string)
    (country_name : string) (fuel : nat) (current_path : option string)
    : M unit :=
  walk w coll iso2 iso3 country_name fuel current_path ;;
  match iso2 with
  | None | Some "" => mret tt
  | Some code =>
      now ← utcnow w;
      modify (set_freshness (fun m => <[code := DT.isoformat now]> m))
  end.

(** [scrape_country], called as [main] calls it: with the ledger and the
    accumulator of the run. *)
Definition scrape_country (w : world) (fuel : nat)
    (country_href country_label : string) (coll : bool) : M unit :=
  let country_name := derive_country_name country_href country_label in
  '(iso2, iso3, matched_name) ← lookup_iso w country_name;
  ledger ← gets freshness;
  '(ok, reason) ← should_scrape w iso2 ledger;
  if negb ok then mret tt
  else scrape_from w coll iso2 iso3 country_name fuel (Some country_href).

Definition get_mongo_collection (w : world) : M unit :=
  if mongo_ping w then mret tt else raise ConnectionError.

(** Step 4 of [main]: every partition inside its own failure boundary. *)
Definition scrape_all (w : world) (fuel : nat) (coll : bool)
    (country_links : list (string * string)) : M unit :=
  for_each country_links (fun link =>
    catch (scrape_country w fuel (fst link) (snd link) coll)
          (fun _ => mret tt)).

(** Steps 5 and 6 of [main]. *)
Definition finish : M unit :=
  refs ← gets all_docs;
  (match refs with
   | [] => mret tt
   | _ :: _ =>
       docs ← gets (fun s => map (fun r => heap s !!! r) refs);
       modify (set_data_file (map json_doc docs))
   end) ;;
  ledger ← gets freshness;
  save_freshness ledger.

Definition main (w : world) (fuel : nat) : M unit :=
  loaded ← load_freshness;
  modify (set_freshness (fun _ => loaded)) ;;
  country_links ← get_country_links w;
  coll ← catch (get_mongo_collection w ;; mret true) (fun _ => mret false);
  modify (set_all_docs (fun _ => [])) ;;
  scrape_all w fuel coll country_links ;;
  finish.

(** ** Vocabulary of the statements about runs *)

(** The documents of a page, as the loop builds them. *)
Definition page_docs (iso2 iso3 : option string) (country_name path : string)
    (page : soup) : list dict :=
  map (make_doc iso2 iso3 country_name path) (page_rows page).

(** What the store writer does to one document at a heap address. *)
Definition stamp (now : DT.datetime) (d : dict) : dict :=
  dict_set "updatedAt" (VDateTime now)
    (dict_setdefault "createdAt" (VDateTime now) d).

Definition give_id (w : world) (r : nat) (d : dict) : dict :=
  dict_setdefault "_id" (VObjectId (object_id w r)) d.

(** A batch created at address [base], after the store writer. *)
Definition stored_form (w : world) (now : DT.datetime) (base : nat)
    (ds : list dict) : list dict :=
  imap (fun j d => give_id w (base + j) (stamp now d)) ds.

(** The objects of a batch when the loop appends them to the accumulator. *)
Definition batch_final (w : world) (coll : bool) (s : state)
    (ds : list dict) : list dict :=
  match coll, ds with
  | true, _ :: _ =>
      stored_form w (DT.as_utc (clock w (clock_reads s))) (length (heap s)) ds
  | _, _ => ds
  end.

(** The state after one turn of the loop on a page that was fetched and
    holds the documents [ds]. *)
Definition after_page (w : world) (coll : bool) (url : string)
    (ds : list dict) (s : state) : state :=
  let stored := coll && negb (bool_decide (ds = [])) in
  let batch := batch_final w coll s ds in
  {| heap := heap s ++ batch;
     all_docs := all_docs s ++ seq (length (heap s)) (length ds);
     freshness := freshness s;
     requests := requests s ++ [url];
     lookups := lookups s;
     store := if stored && negb (insert_fails w (store_calls s) batch)
              then store s ++ [batch] else store s;
     store_calls := if stored then S (store_calls s) else store_calls s;
     clock_reads := if stored then S (clock_reads s) else clock_reads s;
     slept := slept s + 1;
     data_file := data_file s;
     freshness_file := freshness_file s |}.

(** The documents the accumulator refers to. *)
Definition accumulated (s : state) : list dict :=
  map (fun r => heap s !!! r) (all_docs s).

(** [s'] has the objects and accumulator of [s], and after them the new
    objects [ds], all of them accumulated. *)
Definition grows (ds : list dict) (s s' : state) : Prop :=
  heap s' = heap s ++ ds
  /\ all_docs s' = all_docs s ++ seq (length (heap s)) (length ds).

Definition row_keys : list string := ["name"; "swift_code"; "city"; "branch"].

(** The row inside a document. *)
Definition row_fields (d : dict) : dict :=
  filter (fun kv => existsb (String.eqb (fst kv)) row_keys = true) d.

Definition page_url (path : string) : string := BASE_URL +:+ path.

(** How a chain of pages ends: with a page without a next page, or with a
    page that cannot be fetched. *)
Inductive ending :=
| Finished
| FailsAt (path : string).

(** [chain w n cur pages e]: from the [n]-th request on, following the
    next-page pointers from [cur] fetches [pages] in this order and then
    ends as [e] says. *)
Inductive chain (w : world) : nat -> option string ->
    list (string * soup) -> ending -> Prop :=
| chain_finished n cur :
    truthy cur = false -> chain w n cur [] Finished
| chain_fails n path :
    path <> "" -> fetch w n (page_url path) = None ->
    chain w n (Some path) [] (FailsAt path)
| chain_page n path page rest e :
    path <> "" -> fetch w n (page_url path) = Some page ->
    chain w (S n) (page_next page) rest e ->
    chain w n (Some path) ((path, page) :: rest) e.

(** A document with, or without, the two time stamps of the store writer. *)
Definition stamped (d : dict) : bool :=
  dict_has "createdAt" d && dict_has "updatedAt" d.

Definition unstamped (d : dict) : bool :=
  negb (dict_has "createdAt" d) && negb (dict_has "updatedAt" d).

(** The documents of a run carry the two time stamps exactly when the
    document store is configured. *)
Definition doc_ok (coll : bool) (d : dict) : Prop :=
  if coll then stamped d = true else unstamped d = true.

(** [s'] has the ledger, the lookups and the files of [s]. *)
Definition same_files (s s' : state) : Prop :=
  freshness s' = freshness s /\ lookups s' = lookups s
  /\ data_file s' = data_file s /\ freshness_file s' = freshness_file s.

(** The number of turns of the loop on a chain. *)
Definition turns (pages : list (string * soup)) (e : ending) : nat :=
  length pages + match e with Finished => 0 | FailsAt _ => 1 end.

(** The requests of a walk along a chain. *)
Definition chain_requests (pages : list (string * soup)) (e : ending)
    : list string :=
  map (fun pg => page_url (fst pg)) pages
  ++ match e with Finished => [] | FailsAt path => [page_url path] end.

(** The result of a walk along a chain. *)
Definition chain_outcome (e : ending) : outcome unit :=
  match e with Finished => Ok tt | FailsAt _ => Raise HTTPError end.

(** [L'] keeps every entry of [L], except those replaced by the text of a
    clock reading. *)
Definition ledger_extends (w : world) (L L' : gmap string string) : Prop :=
  forall k, L' !! k = L !! k
            \/ exists n, L' !! k = Some (DT.isoformat (DT.as_utc (clock w n))).

(** The steps of a run after its start: the objects and the accumulator
    grow by documents of the run, the files are not written, and the
    ledger is extended. *)
Definition advances (w : world) (coll : bool) (s s' : state) : Prop :=
  exists ds, grows ds s s' /\ Forall (doc_ok coll) ds
             /\ data_file s' = data_file s
             /\ freshness_file s' = freshness_file s
             /\ ledger_extends w (freshness s) (freshness s').

(** A computation whose final state is related to its initial state by
    [R], whatever its outcome. *)
Definition preserves (R : state -> state -> Prop) {A} (m : M A) : Prop :=
  forall s, R s (snd (m s)).

(** The ledger a run starts from. *)
Definition loaded_ledger (s : state) : gmap string string :=
  match freshness_file s with
  | Some (Ledger m) => m
  | _ => ∅
  end.

(** The state of [main] when it starts on the partitions: the ledger is
    loaded, the directory was requested, the accumulator is empty. *)
Definition started (s : state) : state :=
  set_all_docs (fun _ => [])
    (set_requests (fun l => l ++ [BROWSE_URL])
       (set_freshness (fun _ => loaded_ledger s) s)).

(** The fields of the document of the end-to-end scenario that the scraper
    itself sets. *)
Definition x_document (iso3 : option string) (country_name : string) : dict :=
  [("iso_code", VStr "XX"); ("iso3", of_opt iso3);
   ("country", VStr country_name); ("page", VStr "/x_swift_codes.html");
   ("name", VStr "Bank A"); ("swift_code", VStr "AAAABBCC");
   ("city", VStr "Town"); ("branch", VStr "HQ")].

(** What is left of the run after a page of a partition: the rest of the
    partition inside its failure boundary, the other partitions, the end. *)
Definition rest_of_run (w : world) (fuel fuel' : nat) (coll : bool)
    (iso2 iso3 : option string) (country_name : string)
    (next_href : option string) (links : list (string * string)) : M unit :=
  catch (scrape_from w coll iso2 iso3 country_name fuel' next_href)
        (fun _ => mret tt) ;;
  scrape_all w fuel coll links ;;
  finish.

(** ** Sample worlds *)

Definition empty_soup : soup :=
  {| anchors := []; next_link := None; names := []; swifts := [];
     cities := []; branches := [] |}.

Definition initial_state : state :=
  {| heap := []; all_docs := []; freshness := ∅; requests := [];
     lookups := []; store := []; store_calls := 0; clock_reads := 0;
     slept := 0; data_file := None; freshness_file := None |}.

(** A clock that starts on 2025-06-01 12:00:00 and advances one second at
    each reading. *)
Definition sample_clock (n : nat) : DT.datetime :=
  DT.mk 2025 6 1 12 0 (Z.of_nat n mod 60) 0 None.

(** The end-to-end scenario: one partition [X] with one page of one row,
    resolved to [XX]. *)
Definition x_directory : soup :=
  {| anchors := [(Some "/x_swift_codes.html", "X")]; next_link := None;
     names := []; swifts := []; cities := []; branches := [] |}.

Definition x_page : soup :=
  {| anchors := []; next_link := None;
     names := ["Bank A"]; swifts := ["AAAABBCC"];
     cities := ["Town"]; branches := ["HQ"] |}.

Definition x_world (store_on : bool) : world :=
  {| fromisoformat := DT.parse_isoformat;
     clock := sample_clock;
     fetch := fun _ url =>
       if String.eqb url BROWSE_URL then Some x_directory
       else if String.eqb url (BASE_URL +:+ "/x_swift_codes.html")
            then Some x_page else None;
     restcountries := fun _ _ =>
       Some {| status_code := 200;
               body := JsonList
                 [Candidate (Some "XX") (Some "XXX")
                    (NameObject (Some "Xland"))] |};
     mongo_ping := store_on;
     object_id := fun r => "65f0c0ffee" +:+ DT.zpad 14 (Z.of_nat r);
     insert_fails := fun _ _ => false |}.

(** A directory of two partitions: [N], of three pages, and [X]. Page
    [broken] of [N], when there is one, cannot be fetched; the document
    store is configured when [store_on] and refuses every batch when
    [outage]. *)
Definition n_page (k : nat) : soup :=
  match k with
  | 1 => {| anchors := [];
            next_link := Some (Some "/n_swift_codes_page_2.html");
            names := ["Bank 1"; "Bank 2"]; swifts := ["NNNN1111"; "NNNN2222"];
            cities := ["North"; "South"]; branches := ["Main"; "Port"] |}
  | 2 => {| anchors := [];
            next_link := Some (Some "/n_swift_codes_page_3.html");
            names := ["Bank 3"]; swifts := ["NNNN3333"];
            cities := ["East"]; branches := ["Hill"] |}
  | _ => {| anchors := []; next_link := None;
            names := ["Bank 4"]; swifts := ["NNNN4444"];
            cities := ["West"]; branches := ["Quay"] |}
  end.

Definition n_path (k : nat) : string :=
  match k with
  | 1 => "/n_swift_codes.html"
  | 2 => "/n_swift_codes_page_2.html"
  | _ => "/n_swift_codes_page_3.html"
  end.

Definition n_directory : soup :=
  {| anchors := [(Some "/n_swift_codes.html", "N");
                 (Some "/x_swift_codes.html", "X")];
     next_link := None;
     names := []; swifts := []; cities := []; branches := [] |}.

Definition n_world (broken : option nat) (store_on outage : bool) : world :=
  {| fromisoformat := DT.parse_isoformat;
     clock := sample_clock;
     fetch := fun _ url =>
       if String.eqb url BROWSE_URL then Some n_directory
       else if String.eqb url (page_url "/x_swift_codes.html")
       then Some x_page
       else
         match filter (fun k => String.eqb url (page_url (n_path k)))
                 [1; 2; 3] with
         | k :: _ =>
             if bool_decide (broken = Some k) then None else Some (n_page k)
         | [] => None
         end;
     restcountries := fun _ name =>
       if String.eqb name "n"
       then Some {| status_code := 200;
                    body := JsonList
                      [Candidate (Some "NN") (Some "NNN")
                         (NameObject (Some "Nland"))] |}
       else if String.eqb name "x"
       then Some {| status_code := 200;
                    body := JsonList
                      [Candidate (Some "XX") (Some "XXX")
                         (NameObject (Some "Xland"))] |}
       else Some {| status_code := 404; body := JsonOther |};
     mongo_ping := store_on;
     object_id := fun r => "65f0c0ffee" +:+ DT.zpad 14 (Z.of_nat r);
     insert_fails := fun _ _ => outage |}.

(** ** Vocabulary of the further properties *)

(** [s'] has the document store of [s], and no call to it was made. *)
Definition same_store (s s' : state) : Prop :=
  store s' = store s /\ store_calls s' = store_calls s.

(** A state of the end-to-end scenario in which the ledger holds, for
    [XX], a time without a zone. *)
Definition naive_ledger_state : state :=
  set_freshness (fun _ => {["XX" := "2025-05-31T12:00:00"]}) initial_state.

(** A world whose only page names itself as its next page. *)
Definition loop_page : soup :=
  {| anchors := []; next_link := Some (Some "/loop_swift_codes.html");
     names := ["Bank L"]; swifts := ["LLLL0000"];
     cities := ["Ring"]; branches := ["Loop"] |}.

Definition loop_world : world :=
  {| fromisoformat := DT.parse_isoformat;
     clock := sample_clock;
     fetch := fun _ url =>
       if String.eqb url (page_url "/loop_swift_codes.html")
       then Some loop_page else None;
     restcountries := fun _ _ => None;
     mongo_ping := false;
     object_id := fun r => DT.zpad 24 (Z.of_nat r);
     insert_fails := fun _ _ => false |}.


(** The [i]-th answer of the identity service, to the request for [name],
    has [code] as the short code of its first candidate. *)
Definition resolved_to (w : world) (i : nat) (name code : string) : Prop :=
  exists resp cca3 nm rest,
    restcountries w i name = Some resp
    /\ status_raises resp = false
    /\ body resp = JsonList (Candidate (Some code) cca3 nm :: rest).

(** The entry of [k] was written between [s] and [s']: a lookup made in
    between resolved to [k], and the entry is the text of a clock reading
    made in between. *)
Definition touched (w : world) (s s' : state) (k : string) : Prop :=
  exists i name n,
    length (lookups s) <= i /\ lookups s' !! i = Some name
    /\ resolved_to w i name k
    /\ clock_reads s <= n < clock_reads s'
    /\ freshness s' !! k = Some (DT.isoformat (DT.as_utc (clock w n))).

(** From [s] to [s'] the lookups and the clock readings only grow, and an
    entry of the ledger is either as it was or touched in between. *)
Definition tracks (w : world) (s s' : state) : Prop :=
  (exists more, lookups s' = lookups s ++ more)
  /\ clock_reads s <= clock_reads s'
  /\ forall k, freshness s' !! k = freshness s !! k \/ touched w s s' k.

(** The partitions' part of what is left of the run after a page. *)
Definition rest_of_partitions (w : world) (fuel fuel' : nat) (coll : bool)
    (iso2 iso3 : option string) (country_name : string)
    (next_href : option string) (links : list (string * string)) : M unit :=
  catch (scrape_from w coll iso2 iso3 country_name fuel' next_href)
        (fun _ => mret tt) ;;
  scrape_all w fuel coll links.

(** * Properties *)

(** ** The normaliser *)

Section Normaliser.

Import PyStr.

Abbreviation sp := (" "%char).

Lemma cons_word_Forall (P : list ascii -> Prop) w ws :
  (w <> [] -> P w) -> Forall P ws -> Forall P (cons_word w ws).
Proof.
  intros Hw Hws. destruct w; simpl; [done|].
  constructor; [by apply Hw | done].
Qed.

Lemma words_words l :
  Forall (fun c => isspace c = false) (words l).1 /\ Forall word (words l).2.
Proof.
  induction l as [|c l [IHw IHws]]; simpl; [by split|].
  destruct (words l) as [w ws]; simpl in *.
  destruct (isspace c) eqn:Hc; simpl.
  - split; [constructor|].
    apply cons_word_Forall; [|done]. by intros Hne; split.
  - split; [by constructor | done].
Qed.

Lemma split_ws_words l : Forall word (split_ws l).
Proof.
  unfold split_ws. pose proof (words_words l) as [Hw Hws].
  destruct (words l) as [w ws]; simpl in *.
  apply cons_word_Forall; [|done]. by intros Hne; split.
Qed.

Lemma words_app w l :
  Forall (fun c => isspace c = false) w ->
  words (w ++ l) = (w ++ (words l).1, (words l).2).
Proof.
  induction 1 as [|c w Hc _ IH]; simpl; [by destruct (words l)|].
  rewrite IH, Hc. done.
Qed.

Lemma words_join w ws :
  word w -> Forall word ws -> words (join [sp] (w :: ws)) = (w, ws).
Proof.
  intros Hw Hws. revert w Hw.
  induction Hws as [|w2 ws Hw2 Hws IH]; intros w [Hne Hw].
  - simpl. rewrite <- (app_nil_r w) at 1. rewrite words_app by done.
    simpl. by rewrite app_nil_r.
  - change (join [sp] (w :: w2 :: ws))
      with (w ++ sp :: join [sp] (w2 :: ws)).
    rewrite words_app by done.
    change (words (sp :: join [sp] (w2 :: ws)))
      with (let '(w', ws') := words (join [sp] (w2 :: ws)) in
            ([] : list ascii, cons_word w' ws')).
    rewrite IH by done. simpl. rewrite app_nil_r.
    destruct Hw2 as [Hne2 _]. by destruct w2.
Qed.

Lemma split_ws_join ws : Forall word ws -> split_ws (join [sp] ws) = ws.
Proof.
  intros Hws. destruct Hws as [|w ws Hw Hws]; [done|].
  unfold split_ws. rewrite words_join by done.
  destruct Hw as [Hne _]. by destruct w.
Qed.

Lemma words_Forall (P : ascii -> Prop) l :
  Forall P l -> Forall P (words l).1 /\ Forall (Forall P) (words l).2.
Proof.
  induction 1 as [|c l Hc _ [IHw IHws]]; simpl; [by split|].
  destruct (words l) as [w ws]; simpl in *.
  destruct (isspace c); simpl.
  - split; [constructor|]. by apply cons_word_Forall.
  - split; [by constructor | done].
Qed.

Lemma join_Forall (P : ascii -> Prop) ws :
  P sp -> Forall (Forall P) ws -> Forall P (join [sp] ws).
Proof.
  intros Hsp. induction 1 as [|w ws Hw Hws IH]; [constructor|].
  destruct ws as [|w2 ws]; [done|].
  change (join [sp] (w :: w2 :: ws)) with (w ++ sp :: join [sp] (w2 :: ws)).
  apply Forall_app. split; [done|]. by constructor.
Qed.

Lemma join_split_Forall (P : ascii -> Prop) l :
  P sp -> Forall P l -> Forall P (join [sp] (split_ws l)).
Proof.
  intros Hsp Hl. apply join_Forall; [done|].
  unfold split_ws. destruct (words_Forall P l Hl) as [Hw Hws].
  destruct (words l) as [w ws]; simpl in *. by apply cons_word_Forall.
Qed.

(** Splitting and joining never makes a text longer. *)
Lemma join_weight ws : ws <> [] -> S (length (join [sp] ws)) <= weight ws.
Proof.
  induction ws as [|w ws IH]; [done|]. intros _.
  destruct ws as [|w2 ws]; [simpl; lia|].
  change (join [sp] (w :: w2 :: ws)) with (w ++ sp :: join [sp] (w2 :: ws)).
  rewrite List.length_app. cbn [length weight] in *.
  specialize (IH ltac:(done)). lia.
Qed.

Lemma weight_cons_word w ws :
  weight (cons_word w ws) <= S (length w) + weight ws.
Proof. destruct w; simpl; lia. Qed.

Lemma words_weight l :
  length (words l).1 + weight (words l).2 <= length l.
Proof.
  induction l as [|c l IH]; simpl; [lia|].
  destruct (words l) as [w ws]; simpl in *.
  destruct (isspace c); simpl.
  - pose proof (weight_cons_word w ws). lia.
  - lia.
Qed.

Lemma join_split_length l : length (join [sp] (split_ws l)) <= length l.
Proof.
  unfold split_ws. pose proof (words_weight l) as H.
  destruct (words l) as [w ws]; simpl in *.
  destruct w as [|c w]; simpl.
  - destruct ws as [|w2 ws]; [simpl; lia|].
    pose proof (join_weight (w2 :: ws) ltac:(done)). lia.
  - destruct ws as [|w2 ws]; [simpl in *; lia|].
    pose proof (join_weight (w2 :: ws) ltac:(done)) as Hj.
    cbn [join length weight] in *. rewrite List.length_app.
    cbn [length app] in *. lia.
Qed.

(** *** Stripping *)

Lemma lstrip_length p l : length (lstrip p l) <= length l.
Proof. induction l as [|c l IH]; simpl; [lia|]. destruct (p c); simpl; lia. Qed.

Lemma rstrip_length p l : length (rstrip p l) <= length l.
Proof.
  unfold rstrip. rewrite length_rev.
  pose proof (lstrip_length p (rev l)). by rewrite length_rev in *.
Qed.

Lemma rstrip_snoc p l x :
  rstrip p (l ++ [x]) = if p x then rstrip p l else l ++ [x].
Proof.
  unfold rstrip. rewrite rev_unit. simpl. destruct (p x); [done|].
  simpl. by rewrite rev_involutive.
Qed.

(** The two ends of a text, as a first and as a last character. *)
Lemma edges_ok_true p l :
  edges_ok p l = true <->
  l = [] \/ ((exists c l', l = c :: l' /\ p c = false)
             /\ (exists l' x, l = l' ++ [x] /\ p x = false)).
Proof.
  destruct l as [|c l]; [by split; [left|] |]. unfold edges_ok.
  destruct (exists_last (l:=c :: l) ltac:(done)) as [l' [x Hx]].
  rewrite Hx at 1. rewrite last_last, andb_true_iff, !negb_true_iff.
  split.
  - intros [Hc Hl]. right. split; [by exists c, l | by exists l', x].
  - intros [|[(c' & l2 & [= <- <-] & Hc) (l3 & y & Hy & Hpy)]]; [done|].
    split; [done|]. rewrite Hx in Hy.
    apply app_inj_tail in Hy as [_ ->]. done.
Qed.

Lemma strip_fix p l : edges_ok p l = true -> strip_by p l = l.
Proof.
  intros [->|[(c & l1 & -> & Hc) (l2 & x & Hl & Hx)]]%edges_ok_true; [done|].
  unfold strip_by. simpl. rewrite Hc, Hl, rstrip_snoc, Hx. done.
Qed.

Lemma strip_shrinks p l :
  edges_ok p l = false -> length (strip_by p l) < length l.
Proof.
  destruct l as [|c l]; [done|]. intros H. unfold strip_by.
  unfold edges_ok in H. cbn [lstrip]. destruct (p c) eqn:Hc.
  - pose proof (rstrip_length p (lstrip p l)).
    pose proof (lstrip_length p l). simpl. lia.
  - rewrite andb_true_l in H. apply negb_false_iff in H.
    destruct (exists_last (l:=c :: l) ltac:(done)) as [l' [x Hx]].
    rewrite Hx in H |- *. rewrite last_last in H.
    rewrite rstrip_snoc, H, List.length_app. simpl.
    pose proof (rstrip_length p l'). lia.
Qed.

(** *** The shape of a normalised text *)

Lemma join_starts w ws : exists rest, join [sp] (w :: ws) = w ++ rest.
Proof.
  destruct ws as [|w2 ws]; [exists []; simpl; by rewrite app_nil_r|].
  by exists (sp :: join [sp] (w2 :: ws)).
Qed.

Lemma join_edges ws : Forall word ws -> edges_ok isspace (join [sp] ws) = true.
Proof.
  intros Hws. apply edges_ok_true.
  destruct Hws as [|w ws Hw Hws]; [by left|]. right. split.
  - destruct (join_starts w ws) as [rest ->].
    destruct Hw as [Hne Hw]. destruct Hw as [|c w Hc Hw]; [done|].
    by exists c, (w ++ rest).
  - revert w Hw. induction Hws as [|w2 ws Hw2 Hws IH]; intros w [Hne Hw].
    + simpl. destruct (exists_last Hne) as [l' [x ->]].
      exists l', x. split; [done|].
      apply Forall_app in Hw as [_ Hx]. by inversion Hx.
    + destruct (IH w2 Hw2) as (l' & x & Hl & Hx).
      exists (w ++ sp :: l'), x. split; [|done].
      change (join [sp] (w :: w2 :: ws))
        with (w ++ sp :: join [sp] (w2 :: ws)).
      rewrite Hl. by rewrite <- app_assoc.
Qed.

Lemma replaced_plain l :
  Forall plain (replace_char "-" " " (replace_char "_" " " l)).
Proof.
  unfold replace_char. rewrite map_map. apply Forall_map, Forall_true.
  intros c. destruct (Ascii.eqb_spec c "_") as [->|H1]; [by split|].
  destruct (Ascii.eqb_spec c "-") as [->|H2]; by split.
Qed.

Lemma replace_plain l :
  Forall plain l -> replace_char "-" " " (replace_char "_" " " l) = l.
Proof.
  unfold replace_char. rewrite map_map. intros H.
  rewrite <- (map_id l) at 2. apply map_ext_Forall.
  eapply Forall_impl; [exact H|]. intros c [H1 H2]. simpl.
  destruct (Ascii.eqb_spec c "_"); [done|].
  by destruct (Ascii.eqb_spec c "-").
Qed.

Lemma replace_length a b l : length (replace_char a b l) = length l.
Proof. apply length_map. Qed.

(** Among the characters that are neither white space nor an underscore,
    the trimmed ones are the slash and the dot. *)
Lemma trim_set_slash_dot c :
  isspace c = false -> c <> "_"%char -> mem trim_set c = is_slash_dot c.
Proof.
  intros Hs Hu. unfold mem, trim_set, is_slash_dot. simpl.
  destruct (Ascii.eqb_spec c "/"); [done|]. simpl.
  destruct (Ascii.eqb_spec c "_"); [done|]. simpl.
  destruct (Ascii.eqb_spec c "."); [done|]. simpl.
  destruct (Ascii.eqb_spec c " ") as [->|]; [done|].
  destruct (Ascii.eqb_spec c TAB) as [->|]; [done|].
  destruct (Ascii.eqb_spec c CR) as [->|]; [done|].
  destruct (Ascii.eqb_spec c LF) as [->|]; done.
Qed.

Lemma edges_trim l :
  edges_ok isspace l = true -> Forall plain l ->
  edges_ok (mem trim_set) l = edge_clean_chars l.
Proof.
  intros He Hp. destruct l as [|c l]; [done|].
  unfold edges_ok, edge_clean_chars in *.
  apply andb_true_iff in He as [Hc Hl]. apply negb_true_iff in Hc, Hl.
  assert (Hin : In (List.last (c :: l) c) (c :: l)).
  { destruct (exists_last (l:=c :: l) ltac:(done)) as [l' [x Hx]].
    rewrite Hx, last_last. apply in_or_app. right. by left. }
  rewrite Forall_forall in Hp.
  apply list_elem_of_In in Hin.
  rewrite !trim_set_slash_dot; try done.
  - by apply Hp.
  - apply Hp. by left.
Qed.

(** What [normalize_chars] returns: words joined by single spaces, without
    underscores and hyphens. *)
Lemma normalize_chars_shape l :
  exists ws, normalize_chars l = join [sp] ws /\ Forall word ws
             /\ Forall plain (normalize_chars l).
Proof.
  unfold normalize_chars. eexists. split; [reflexivity|].
  split; [apply split_ws_words|].
  apply join_split_Forall; [by split | apply replaced_plain].
Qed.

Lemma normalize_chars_again l :
  normalize_chars (normalize_chars l) = normalize_chars l
  <-> edge_clean_chars (normalize_chars l) = true.
Proof.
  destruct (normalize_chars_shape l) as (ws & Hr & Hws & Hp).
  set (r := normalize_chars l) in *.
  assert (Hsp : edges_ok isspace r = true) by (rewrite Hr; by apply join_edges).
  assert (Htrim := edges_trim r Hsp Hp).
  unfold normalize_chars at 1. rewrite (strip_fix isspace r Hsp).
  destruct (edge_clean_chars r) eqn:Hclean.
  - rewrite (strip_fix _ r Htrim), (replace_plain r Hp).
    split; [done|]. intros _. rewrite Hr. by rewrite split_ws_join.
  - split; [|done]. intros Heq.
    pose proof (strip_shrinks _ r Htrim) as Hlt.
    pose proof (join_split_length
      (replace_char "-" " "
        (replace_char "_" " " (strip_by (mem trim_set) r)))) as Hle.
    rewrite Heq, !replace_length in Hle. lia.
Qed.

Lemma chars_str l : chars (str l) = l.
Proof. apply list_ascii_of_string_of_list_ascii. Qed.

Lemma normalize_country_name_chars raw :
  normalize_country_name raw = str (normalize_chars (chars raw)).
Proof.
  unfold normalize_country_name.
  destruct (String.eqb_spec raw "") as [->|]; done.
Qed.

End Normaliser.

(** C8 (as stated, refuted): [normalize] is not idempotent. The text ["-/a"]
    keeps its slash through the trim, because the hyphen before it is
    trimmed by no step and only later turned into a space: the first pass
    gives ["/a"], the second gives ["a"]. *)
Lemma normalize_not_idempotent :
  normalize_country_name "-/a" = "/a"
  /\ normalize_country_name (normalize_country_name "-/a") = "a"
  /\ normalize_country_name (normalize_country_name "-/a")
     <> normalize_country_name "-/a".
Proof. vm_compute. repeat split. discriminate. Qed.

(** C8 (amended): [normalize] is total, [normalize("")] is [""], and
    [normalize(normalize(x)) == normalize(x)] holds exactly when
    [normalize(x)] neither starts nor ends with a slash or a dot. *)
Theorem normalize_idempotent_iff (x : string) :
  normalize_country_name "" = ""
  /\ (normalize_country_name (normalize_country_name x)
        = normalize_country_name x
      <-> edge_clean (normalize_country_name x) = true).
Proof.
  split; [reflexivity|].
  rewrite (normalize_country_name_chars (normalize_country_name x)).
  rewrite (normalize_country_name_chars x).
  unfold edge_clean. rewrite chars_str.
  rewrite <- normalize_chars_again. split.
  - intros H. apply (f_equal PyStr.chars) in H. by rewrite !chars_str in H.
  - by intros ->.
Qed.

(** ** Running the monad *)

Ltac run :=
  unfold mbind, mret, M_bind, M_ret, gets, modify, raise, catch; simpl.

Lemma truthy_str_false s : truthy_str s = false <-> s = "".
Proof.
  unfold truthy_str. destruct (String.eqb_spec s ""); simpl; split; congruence.
Qed.

Lemma truthy_str_true s : truthy_str s = true <-> s <> "".
Proof.
  unfold truthy_str. destruct (String.eqb_spec s ""); simpl; split; congruence.
Qed.

Lemma truthy_false o : truthy o = false <-> o = None \/ o = Some "".
Proof.
  destruct o as [s|]; simpl; [|by split; [left|]].
  rewrite truthy_str_false. split; [intros ->; by right|].
  by intros [|[= ->]].
Qed.

(** ** The freshness decision *)

Section Freshness.

Variable w : world.

Lemma should_scrape_absent iso2 L s :
  truthy iso2 = false ->
  should_scrape w iso2 L s
  = (Ok (true, "No iso2 code; defaulting to scrape."), s).
Proof. by intros [-> | ->]%truthy_false. Qed.

Lemma should_scrape_no_record code L s :
  code <> "" -> L !! code = None \/ L !! code = Some "" ->
  should_scrape w (Some code) L s
  = (Ok (true, "No previous scrape recorded."), s).
Proof.
  intros Hc HL. unfold should_scrape. destruct code; [done|].
  by destruct HL as [-> | ->].
Qed.

Lemma should_scrape_parsed code L s last_str :
  code <> "" -> L !! code = Some last_str -> last_str <> "" ->
  should_scrape w (Some code) L s
  = match fromisoformat w last_str with
    | None => (Ok (true, "Invalid stored date '" +:+ last_str
                         +:+ "', scraping."), s)
    | Some last_dt =>
        match DT.sub (DT.as_utc (clock w (clock_reads s))) last_dt with
        | None => (Raise TypeError, tick s)
        | Some age =>
            (Ok (if (age <? DT.weeks FRESHNESS_WEEKS)%Z
                 then (false, "Scraped recently at "
                              +:+ DT.isoformat last_dt +:+ ".")
                 else (true, "Data stale; last scrape at "
                             +:+ DT.isoformat last_dt +:+ ".")), tick s)
        end
    end.
Proof.
  intros Hc HL Hl. unfold should_scrape. destruct code; [done|].
  rewrite HL. destruct last_str; [done|].
  destruct (fromisoformat w _) as [last_dt|]; [|done].
  run. unfold utcnow.
  destruct (DT.sub _ last_dt) as [age|]; [|done].
  by destruct (age <? _)%Z.
Qed.

End Freshness.

(** C1 (as stated, refuted). With the ledger [{"XX": ""}] the code [XX] has
    a ledger entry and its text does not parse, yet the reason is the one
    for a missing record, not the one for a corrupt date. With a stored
    time that parses but has no zone, the age cannot be computed and no
    pair is returned. *)
Lemma should_scrape_not_five_steps :
  ({["XX" := ""]} : gmap string string) !! "XX" = Some ""
  /\ DT.parse_isoformat "" = None
  /\ should_scrape (x_world false) (Some "XX") {["XX" := ""]} initial_state
     = (Ok (true, "No previous scrape recorded."), initial_state)
  /\ DT.parse_isoformat "2025-05-31T12:00:00"
     = Some (DT.mk 2025 5 31 12 0 0 0 None)
  /\ (should_scrape (x_world false) (Some "XX")
        {["XX" := "2025-05-31T12:00:00"]} initial_state).1
     = Raise TypeError.
Proof. vm_compute. repeat split. Qed.

(** C1 (amended): [should_scrape] decides in this order. An [iso2] that is
    absent or empty: scrape, "no iso2 code". Else no ledger entry, or an
    empty one: scrape, "no previous scrape". Else a stored text that does
    not parse: scrape, "invalid stored date". Else, for a stored time that
    carries a zone, with [age] the current time minus the stored one: below
    four weeks do not scrape, and the reason gives the stored time;
    otherwise scrape, "data stale". *)
Theorem should_scrape_decision (w : world) (iso2 : option string)
    (L : gmap string string) (s : state) :
  (truthy iso2 = false ->
   should_scrape w iso2 L s
   = (Ok (true, "No iso2 code; defaulting to scrape."), s))
  /\ (forall code, iso2 = Some code -> code <> "" ->
      (L !! code = None \/ L !! code = Some "" ->
       should_scrape w iso2 L s
       = (Ok (true, "No previous scrape recorded."), s))
      /\ (forall last_str, L !! code = Some last_str -> last_str <> "" ->
          (fromisoformat w last_str = None ->
           should_scrape w iso2 L s
           = (Ok (true, "Invalid stored date '" +:+ last_str
                        +:+ "', scraping."), s))
          /\ (forall last_dt off,
              fromisoformat w last_str = Some last_dt ->
              DT.tzinfo last_dt = Some off ->
              exists age,
                DT.sub (DT.as_utc (clock w (clock_reads s))) last_dt
                = Some age
                /\ ((age < DT.weeks 4)%Z ->
                    should_scrape w iso2 L s
                    = (Ok (false, "Scraped recently at "
                                  +:+ DT.isoformat last_dt +:+ "."),
                       tick s))
                /\ ((DT.weeks 4 <= age)%Z ->
                    should_scrape w iso2 L s
                    = (Ok (true, "Data stale; last scrape at "
                                 +:+ DT.isoformat last_dt +:+ "."),
                       tick s))))).
Proof.
  split; [apply should_scrape_absent|].
  intros code -> Hc. split; [by apply should_scrape_no_record|].
  intros last_str HL Hl.
  rewrite (should_scrape_parsed w code L s last_str Hc HL Hl).
  split; [by intros ->|].
  intros last_dt off -> Htz.
  unfold DT.sub at 1. simpl. rewrite Htz. eexists. split; [reflexivity|].
  unfold DT.sub. simpl. rewrite Htz. unfold FRESHNESS_WEEKS.
  split; intros Hage.
  - by apply Z.ltb_lt in Hage as ->.
  - by apply Z.ltb_ge in Hage as ->.
Qed.

(** C9: a stored text that parses to a time without a zone makes
    [should_scrape] raise [TypeError] instead of returning a pair: the
    subtraction from the aware current time is outside the [try]. *)
Theorem should_scrape_naive_raises (w : world) (code last_str : string)
    (last_dt : DT.datetime) (L : gmap string string) (s : state) :
  code <> "" -> L !! code = Some last_str -> last_str <> "" ->
  fromisoformat w last_str = Some last_dt ->
  DT.tzinfo last_dt = None ->
  should_scrape w (Some code) L s = (Raise TypeError, tick s).
Proof.
  intros Hc HL Hl Hp Htz.
  rewrite (should_scrape_parsed w code L s last_str Hc HL Hl), Hp.
  unfold DT.sub. simpl. by rewrite Htz.
Qed.

Lemma should_scrape_naive_raises_witness :
  DT.parse_isoformat "2025-05-31T12:00:00"
  = Some (DT.mk 2025 5 31 12 0 0 0 None)
  /\ should_scrape (x_world true) (Some "XX")
       {["XX" := "2025-05-31T12:00:00"]} initial_state
     = (Raise TypeError, tick initial_state).
Proof.
  split; [vm_compute; reflexivity|].
  apply (should_scrape_naive_raises (x_world true) "XX"
           "2025-05-31T12:00:00" (DT.mk 2025 5 31 12 0 0 0 None)).
  - discriminate.
  - vm_compute; reflexivity.
  - discriminate.
  - vm_compute; reflexivity.
  - reflexivity.
Defined.

(** ** The identity resolver *)





(** ** Objects on the heap *)

Lemma set_heap_id s : set_heap (fun h => h) s = s.
Proof. by destruct s. Qed.

Lemma for_each_update (g : nat -> dict -> dict) refs s :
  for_each refs (fun r => update_dict r (g r)) s
  = (Ok tt,
     set_heap (fun h => fold_left (fun h r => alter (g r) r h) refs h) s).
Proof.
  revert s. induction refs as [|r refs IH]; intros s; simpl.
  - by rewrite set_heap_id.
  - unfold update_dict at 1. run. rewrite IH. by destruct s.
Qed.

(** Updating the objects of a batch that sits at the end of the heap. *)
Lemma alter_tail (g : nat -> dict -> dict) (l1 l2 l3 : list dict) :
  fold_left (fun h r => alter (g r) r h) (seq (length l1) (length l2))
    (l1 ++ l2 ++ l3)
  = l1 ++ imap (fun j => g (length l1 + j)) l2 ++ l3.
Proof.
  revert l1. induction l2 as [|x l2 IH]; intros l1; [done|].
  cbn [length seq fold_left app]. rewrite imap_cons.
  rewrite (alter_app_r_alt _ l1 _ (length l1)) by lia.
  rewrite Nat.sub_diag. cbn [alter list_alter].
  change (l1 ++ g (length l1) x :: l2 ++ l3)
    with (l1 ++ [g (length l1) x] ++ l2 ++ l3).
  rewrite (app_assoc l1).
  replace (S (length l1)) with (length (l1 ++ [g (length l1) x]))
    by (rewrite List.length_app; simpl; lia).
  rewrite IH, <- app_assoc, Nat.add_0_r. simpl. do 3 f_equal.
  apply imap_ext. intros j y _. simpl.
  rewrite List.length_app. simpl. f_equal. lia.
Qed.

Lemma deref_tail (h ds : list dict) :
  map (fun r => (h ++ ds) !!! r) (seq (length h) (length ds)) = ds.
Proof.
  revert h. induction ds as [|d ds IH]; intros h; [done|].
  cbn [length seq map]. rewrite list_lookup_total_middle by done.
  f_equal. specialize (IH (h ++ [d])).
  rewrite List.length_app, <- app_assoc in IH. simpl in IH.
  by rewrite Nat.add_1_r in IH.
Qed.

Lemma alter_batch (g : nat -> dict -> dict) (h ds : list dict) :
  fold_left (fun h r => alter (g r) r h) (seq (length h) (length ds))
    (h ++ ds)
  = h ++ imap (fun j => g (length h + j)) ds.
Proof.
  pose proof (alter_tail g h ds []) as H. by rewrite !app_nil_r in H.
Qed.

(** The store writer, on a batch at the end of the heap: every object of
    the batch is stamped and given an identifier, in place. *)
Lemma store_writer_heap w now (h ds : list dict) :
  fold_left
    (fun h0 r =>
       alter (dict_setdefault "_id" (VObjectId (object_id w r))) r h0)
    (seq (length h) (length ds))
    (fold_left
       (fun h0 r =>
          alter (fun d => dict_set "updatedAt" (VDateTime now)
                            (dict_setdefault "createdAt" (VDateTime now) d))
            r h0)
       (seq (length h) (length ds)) (h ++ ds))
  = h ++ stored_form w now (length h) ds.
Proof.
  rewrite (alter_batch (fun _ => stamp now)).
  rewrite <- (length_imap (fun _ => stamp now) ds) at 1.
  rewrite (alter_batch (fun r => give_id w r)). f_equal.
  rewrite (imap_const (stamp now)), imap_fmap. done.
Qed.

(** ** One turn of the loop *)

Lemma save_documents_mongo_spec w (h ds : list dict) s :
  heap s = h ++ ds -> ds <> [] ->
  let now := DT.as_utc (clock w (clock_reads s)) in
  let batch := stored_form w now (length h) ds in
  let s1 := count_store_call (set_heap (fun _ => h ++ batch) (tick s)) in
  save_documents_mongo w (seq (length h) (length ds)) s
  = if insert_fails w (store_calls s) batch
    then (Raise StoreError, s1)
    else (Ok tt, set_store (fun st => st ++ [batch]) s1).
Proof.
  intros Hh Hds now batch s1.
  unfold save_documents_mongo.
  destruct (seq (length h) (length ds)) as [|r0 refs] eqn:Hrefs.
  { destruct ds; [done|discriminate]. }
  rewrite <- Hrefs. clear r0 refs Hrefs.
  unfold utcnow, insert_many. run. fold now.
  rewrite !for_each_update. simpl. rewrite Hh.
  rewrite !store_writer_heap. fold batch.
  rewrite <- (length_imap (fun j d => give_id w (length h + j) (stamp now d)) ds).
  fold (stored_form w now (length h) ds). fold batch.
  rewrite deref_tail.
  assert (Hs : count_store_call
                 (set_heap (fun h0 => fold_left
                    (fun h1 r => alter (dict_setdefault "_id"
                                          (VObjectId (object_id w r))) r h1)
                    (seq (length h) (length batch)) h0)
                 (set_heap (fun h0 => fold_left
                    (fun h1 r => alter
                       (fun d => dict_set "updatedAt" (VDateTime now)
                          (dict_setdefault "createdAt" (VDateTime now) d))
                       r h1)
                    (seq (length h) (length batch)) h0) (tick s)))
               = s1).
  { unfold s1, count_store_call, set_heap, tick. simpl. rewrite Hh.
    f_equal. unfold batch at 1 2. unfold stored_form at 1 2.
    rewrite !length_imap. apply store_writer_heap. }
  rewrite Hs. by destruct (insert_fails w (store_calls s) batch).
Qed.

Lemma batch_final_stored w s ds :
  ds <> [] ->
  batch_final w true s ds
  = stored_form w (DT.as_utc (clock w (clock_reads s))) (length (heap s)) ds.
Proof. by destruct ds. Qed.

Lemma scrape_page_fails w coll iso2 iso3 country path s :
  fetch w (length (requests s)) (page_url path) = None ->
  scrape_page w coll iso2 iso3 country path s
  = (Raise HTTPError, set_requests (fun l => l ++ [page_url path]) s).
Proof.
  intros H. unfold scrape_page, parse_country_page, fetch_html. run.
  fold (page_url path). by rewrite H.
Qed.

Lemma scrape_page_ok w coll iso2 iso3 country path page s :
  fetch w (length (requests s)) (page_url path) = Some page ->
  scrape_page w coll iso2 iso3 country path s
  = (Ok (page_next page),
     after_page w coll (page_url path)
       (page_docs iso2 iso3 country path page) s).
Proof.
  intros H. unfold scrape_page, parse_country_page, fetch_html. run.
  fold (page_url path). rewrite H. run. unfold new_dicts. simpl.
  fold (page_docs iso2 iso3 country path page).
  set (ds := page_docs iso2 iso3 country path page).
  set (s0 := set_heap (fun h => h ++ ds)
               (set_requests (fun l => l ++ [page_url path]) s)).
  destruct coll.
  - destruct (decide (ds = [])) as [Hds|Hds].
    + rewrite Hds. simpl. unfold after_page, batch_final. simpl.
      subst s0. rewrite Hds. by destruct s.
    + pose proof (save_documents_mongo_spec w (heap s) ds s0 eq_refl Hds)
        as Hsave. simpl in Hsave. rewrite Hsave.
      unfold after_page. rewrite (batch_final_stored w s ds Hds).
      rewrite (bool_decide_eq_false_2 _ Hds). simpl.
      destruct (insert_fails w (store_calls s) _); by destruct s.
  - unfold after_page, batch_final. simpl. subst s0. by destruct s.
Qed.

(** ** The documents of a page *)

Lemma page_rows_shape page :
  Forall (fun row => exists n s c b,
            row = [("name", VStr n); ("swift_code", VStr s);
                   ("city", VStr c); ("branch", VStr b)])
         (page_rows page).
Proof.
  unfold page_rows.
  generalize (names page) (swifts page) (cities page) (branches page).
  induction l as [|n ns IH]; intros [|s ss] [|c cs] [|b bs];
    simpl; constructor; eauto.
Qed.

Section Documents.

Variables (w : world) (iso2 iso3 : option string) (country path : string).
Variables (now : DT.datetime) (r : nat).

Let enrich := make_doc iso2 iso3 country path.
Let store_it d := give_id w r (stamp now d).

Lemma doc_facts row :
  (exists n s c b,
     row = [("name", VStr n); ("swift_code", VStr s);
            ("city", VStr c); ("branch", VStr b)]) ->
  base_fields (enrich row) = enrich row
  /\ row_fields (enrich row) = row
  /\ unstamped (enrich row) = true
  /\ base_fields (store_it (enrich row)) = enrich row
  /\ row_fields (store_it (enrich row)) = row
  /\ stamped (store_it (enrich row)) = true.
Proof. intros (n & s & c & b & ->). repeat split. Qed.

End Documents.

Section Batches.

Variables (w : world) (iso2 iso3 : option string) (country path : string).
Variable page : soup.

Let ds := page_docs iso2 iso3 country path page.

Lemma map_stored_form {B} (f f' : dict -> B) now base (l : list dict) :
  (forall j d, d ∈ l -> f (give_id w (base + j) (stamp now d)) = f' d) ->
  map f (stored_form w now base l) = map f' l.
Proof.
  intros H. unfold stored_form.
  change (map f (imap (fun j d => give_id w (base + j) (stamp now d)) l))
    with (f <$> imap (fun j d => give_id w (base + j) (stamp now d)) l).
  rewrite fmap_imap, <- (imap_const f').
  apply imap_ext. intros j d Hd. simpl. apply H.
  by eapply list_elem_of_lookup_2.
Qed.

Lemma batch_final_length coll s (l : list dict) :
  length (batch_final w coll s l) = length l.
Proof.
  destruct coll, l; try done. unfold batch_final, stored_form.
  by rewrite length_imap.
Qed.

Lemma page_docs_facts :
  Forall (fun d => exists row, row ∈ page_rows page
            /\ d = make_doc iso2 iso3 country path row
            /\ exists n s c b,
                 row = [("name", VStr n); ("swift_code", VStr s);
                        ("city", VStr c); ("branch", VStr b)]) ds.
Proof.
  unfold ds, page_docs. apply Forall_forall. intros d Hd.
  apply list_elem_of_In, in_map_iff in Hd as (row & <- & Hrow).
  apply list_elem_of_In in Hrow.
  exists row. split; [done|]. split; [done|].
  pose proof (page_rows_shape page) as Hs. rewrite Forall_forall in Hs. eauto.
Qed.

Lemma batch_final_base coll s :
  map base_fields (batch_final w coll s ds) = ds.
Proof.
  pose proof page_docs_facts as Hf. rewrite Forall_forall in Hf.
  assert (Hid : map base_fields ds = ds).
  { rewrite <- (map_id ds) at 2. apply map_ext_in. intros d Hd%list_elem_of_In.
    destruct (Hf d Hd) as (row & _ & -> & Hrow).
    apply (doc_facts w iso2 iso3 country path
             (DT.mk 0 0 0 0 0 0 0 None) 0 row Hrow). }
  destruct coll; [|done]. destruct ds as [|d0 l] eqn:Hds; [done|].
  simpl batch_final. rewrite <- Hds in *.
  rewrite (map_stored_form base_fields (fun d => d)); [apply map_id|].
  intros j d Hd. destruct (Hf d Hd) as (row & _ & -> & Hrow).
  apply (doc_facts w iso2 iso3 country path _ _ row Hrow).
Qed.

Lemma batch_final_rows coll s :
  map row_fields (batch_final w coll s ds) = page_rows page.
Proof.
  pose proof page_docs_facts as Hf. rewrite Forall_forall in Hf.
  assert (Hrows : map row_fields ds = page_rows page).
  { unfold ds, page_docs. rewrite map_map.
    rewrite <- (map_id (page_rows page)) at 2. apply map_ext_in.
    intros row Hrow%list_elem_of_In.
    pose proof (page_rows_shape page) as Hs. rewrite Forall_forall in Hs.
    apply (doc_facts w iso2 iso3 country path
             (DT.mk 0 0 0 0 0 0 0 None) 0 row (Hs row Hrow)). }
  destruct coll; [|done]. destruct ds as [|d0 l] eqn:Hds; [done|].
  simpl batch_final. rewrite <- Hds in *.
  rewrite <- Hrows. apply map_stored_form.
  intros j d Hd. destruct (Hf d Hd) as (row & _ & -> & Hrow).
  destruct (doc_facts w iso2 iso3 country path
              (DT.as_utc (clock w (clock_reads s)))
              (length (heap s) + j) row Hrow) as (_ & -> & _ & _ & -> & _).
  done.
Qed.

Lemma batch_final_ok coll s : Forall (doc_ok coll) (batch_final w coll s ds).
Proof.
  pose proof page_docs_facts as Hf. rewrite Forall_forall in Hf.
  destruct coll.
  - destruct ds as [|d0 l] eqn:Hds; [constructor|].
    simpl batch_final. rewrite <- Hds in *.
    apply Forall_forall. intros d' Hd'. unfold stored_form in Hd'.
    apply elem_of_lookup_imap in Hd' as (j & d & -> & Hd).
    apply list_elem_of_lookup_2 in Hd.
    destruct (Hf d Hd) as (row & _ & -> & Hrow).
    apply (doc_facts w iso2 iso3 country path _ _ row Hrow).
  - simpl. apply Forall_forall. intros d Hd.
    destruct (Hf d Hd) as (row & _ & -> & Hrow).
    apply (doc_facts w iso2 iso3 country path
             (DT.mk 0 0 0 0 0 0 0 None) 0 row Hrow).
Qed.

End Batches.

(** ** Growth of the heap and the accumulator *)

Lemma grows_refl s : grows [] s s.
Proof. unfold grows. simpl. by rewrite !app_nil_r. Qed.

Lemma grows_trans d1 d2 s s1 s2 :
  grows d1 s s1 -> grows d2 s1 s2 -> grows (d1 ++ d2) s s2.
Proof.
  intros [Hh1 Ha1] [Hh2 Ha2]. split.
  - by rewrite Hh2, Hh1, app_assoc.
  - rewrite Ha2, Ha1, Hh1, <- app_assoc. f_equal.
    rewrite !List.length_app. by rewrite seq_app.
Qed.

Lemma grows_accumulated ds s s' :
  grows ds s s' ->
  accumulated s' = map (fun r => heap s' !!! r) (all_docs s) ++ ds.
Proof.
  intros [Hh Ha]. unfold accumulated. rewrite Ha, map_app. f_equal.
  rewrite Hh. apply deref_tail.
Qed.

Lemma ledger_extends_refl w L : ledger_extends w L L.
Proof. intros k. by left. Qed.

Lemma ledger_extends_trans w L1 L2 L3 :
  ledger_extends w L1 L2 -> ledger_extends w L2 L3 -> ledger_extends w L1 L3.
Proof.
  intros H12 H23 k. destruct (H23 k) as [->|?]; [apply H12 | by right].
Qed.

Lemma ledger_extends_insert w L code n :
  ledger_extends w L (<[code := DT.isoformat (DT.as_utc (clock w n))]> L).
Proof.
  intros k. destruct (decide (code = k)) as [->|Hne].
  - right. exists n. by rewrite lookup_insert_eq.
  - left. by rewrite lookup_insert_ne.
Qed.

Lemma advances_refl w coll s : advances w coll s s.
Proof.
  exists []. split; [apply grows_refl|].
  repeat split; [constructor | apply ledger_extends_refl].
Qed.

Lemma advances_trans w coll s1 s2 s3 :
  advances w coll s1 s2 -> advances w coll s2 s3 -> advances w coll s1 s3.
Proof.
  intros (d1 & Hg1 & Hd1 & Hf1 & Hl1 & He1) (d2 & Hg2 & Hd2 & Hf2 & Hl2 & He2).
  exists (d1 ++ d2). split; [by eapply grows_trans|].
  split; [by apply Forall_app|].
  split; [congruence|]. split; [congruence|].
  by eapply ledger_extends_trans.
Qed.

(** A step that keeps the heap, the accumulator, the ledger and the files. *)
Lemma advances_frame w coll s s' :
  heap s' = heap s -> all_docs s' = all_docs s ->
  freshness s' = freshness s -> data_file s' = data_file s ->
  freshness_file s' = freshness_file s -> advances w coll s s'.
Proof.
  intros Hh Ha Hf Hd Hl. exists []. unfold grows. simpl.
  rewrite Hh, Ha, Hf, !app_nil_r.
  repeat split; try done. apply ledger_extends_refl.
Qed.

(** ** Computations that advance the run *)

Section Preserves.

Variable R : state -> state -> Prop.
Hypothesis R_refl : forall s, R s s.
Hypothesis R_trans : forall s1 s2 s3, R s1 s2 -> R s2 s3 -> R s1 s3.

Lemma preserves_ret {A} (a : A) : preserves R (mret a).
Proof. intros s. apply R_refl. Qed.

Lemma preserves_raise {A} e : preserves R (raise e : M A).
Proof. intros s. apply R_refl. Qed.

Lemma preserves_out_of_fuel {A} : preserves R (out_of_fuel : M A).
Proof. intros s. apply R_refl. Qed.

Lemma preserves_gets {A} (f : state -> A) : preserves R (gets f).
Proof. intros s. apply R_refl. Qed.

Lemma preserves_bind {A B} (m : M A) (f : A -> M B) :
  preserves R m -> (forall a, preserves R (f a)) -> preserves R (m ≫= f).
Proof.
  intros Hm Hf s. unfold mbind, M_bind. specialize (Hm s).
  destruct (m s) as [[a|e|] s1]; simpl in *; try done.
  eapply R_trans; [exact Hm | apply Hf].
Qed.

Lemma preserves_catch {A} (m : M A) (h : exn -> M A) :
  preserves R m -> (forall e, preserves R (h e)) -> preserves R (catch m h).
Proof.
  intros Hm Hh s. unfold catch. specialize (Hm s).
  destruct (m s) as [[a|e|] s1]; simpl in *; try done.
  eapply R_trans; [exact Hm | apply Hh].
Qed.

Lemma preserves_for_each {A} (l : list A) (f : A -> M unit) :
  (forall x, preserves R (f x)) -> preserves R (for_each l f).
Proof.
  intros Hf. induction l as [|x l IH]; simpl.
  - apply preserves_ret.
  - apply preserves_bind; [apply Hf | by intros _].
Qed.

End Preserves.

(** ** The pagination walk *)

Section Walk.

Variables (w : world) (coll : bool) (iso2 iso3 : option string).
Variable country : string.

Lemma walk_unfold fuel path :
  path <> "" ->
  walk w coll iso2 iso3 country (S fuel) (Some path)
  = (scrape_page w coll iso2 iso3 country path
       ≫= walk w coll iso2 iso3 country fuel).
Proof. by destruct path. Qed.

Lemma walk_absent fuel cur :
  truthy cur = false -> walk w coll iso2 iso3 country fuel cur = mret tt.
Proof. intros [-> | ->]%truthy_false; by destruct fuel. Qed.

Lemma after_page_advances path page s :
  advances w coll s
    (after_page w coll (page_url path)
       (page_docs iso2 iso3 country path page) s).
Proof.
  exists (batch_final w coll s (page_docs iso2 iso3 country path page)).
  split.
  - split; [done|]. simpl. by rewrite batch_final_length.
  - split; [apply batch_final_ok|].
    repeat split. apply ledger_extends_refl.
Qed.

Lemma scrape_page_advances path :
  preserves (advances w coll) (scrape_page w coll iso2 iso3 country path).
Proof.
  intros s.
  destruct (fetch w (length (requests s)) (page_url path)) as [page|] eqn:Hf.
  - rewrite (scrape_page_ok _ _ _ _ _ _ page) by done.
    apply after_page_advances.
  - rewrite scrape_page_fails by done. by apply advances_frame.
Qed.

Lemma walk_advances fuel cur :
  preserves (advances w coll) (walk w coll iso2 iso3 country fuel cur).
Proof.
  revert cur. induction fuel as [|fuel IH]; intros [[|c p]|];
    try (apply preserves_ret, advances_refl).
  - apply preserves_out_of_fuel, advances_refl.
  - rewrite walk_unfold by done.
    apply preserves_bind;
      [apply advances_trans | apply scrape_page_advances | apply IH].
Qed.

(** The walk leaves the ledger, the lookups and the clock of the freshness
    decision alone. *)
Lemma scrape_page_ledger path s :
  freshness (scrape_page w coll iso2 iso3 country path s).2 = freshness s.
Proof.
  destruct (fetch w (length (requests s)) (page_url path)) as [page|] eqn:Hf.
  - by rewrite (scrape_page_ok _ _ _ _ _ _ page).
  - by rewrite scrape_page_fails.
Qed.

Lemma walk_ledger fuel cur s :
  freshness (walk w coll iso2 iso3 country fuel cur s).2 = freshness s.
Proof.
  revert cur s. induction fuel as [|fuel IH]; intros [[|c p]|] s; try done.
  rewrite walk_unfold by done. unfold mbind, M_bind.
  pose proof (scrape_page_ledger (String c p) s) as Hp.
  destruct (scrape_page _ _ _ _ _ _ s) as [[next|e|] s1]; simpl in *;
    try done.
  by rewrite IH.
Qed.

End Walk.

Section Chains.

Variables (w : world) (coll : bool) (iso2 iso3 : option string).
Variable country : string.

(** The documents and the rows of the pages of a chain, in page order. *)
Let chain_docs (pages : list (string * soup)) : list dict :=
  concat (map (fun pg => page_docs iso2 iso3 country (fst pg) (snd pg)) pages).
Let chain_rows (pages : list (string * soup)) : list dict :=
  concat (map (fun pg => page_rows (snd pg)) pages).

Lemma walk_chain n cur pages e :
  chain w n cur pages e ->
  forall fuel s,
    n = length (requests s) -> turns pages e <= fuel ->
    exists s' ds,
      walk w coll iso2 iso3 country fuel cur s = (chain_outcome e, s')
      /\ requests s' = requests s ++ chain_requests pages e
      /\ grows ds s s'
      /\ map base_fields ds = chain_docs pages
      /\ map row_fields ds = chain_rows pages
      /\ freshness s' = freshness s.
Proof.
  induction 1 as [n cur Hcur | n path Hpath Hfetch
                 | n path page rest e Hpath Hfetch Hrest IH];
    intros fuel s Hn Hfuel.
  - exists s, []. rewrite walk_absent by done.
    unfold chain_requests. simpl. rewrite app_nil_r.
    split; [done|]. split; [done|]. split; [apply grows_refl|]. done.
  - destruct fuel as [|fuel]; [unfold turns in Hfuel; simpl in Hfuel; lia|].
    eexists _, []. rewrite walk_unfold by done.
    unfold mbind, M_bind. subst n. rewrite scrape_page_fails by done.
    split; [reflexivity|]. split; [done|].
    split; [|done]. split; simpl; by rewrite app_nil_r.
  - destruct fuel as [|fuel]; [unfold turns in Hfuel; simpl in Hfuel; lia|].
    rewrite walk_unfold by done. unfold mbind, M_bind. subst n.
    rewrite (scrape_page_ok _ _ _ _ _ _ page) by done.
    set (s1 := after_page w coll (page_url path)
                 (page_docs iso2 iso3 country path page) s).
    destruct (IH fuel s1) as (s' & ds & Hwalk & Hreq & Hg & Hb & Hr & Hl).
    { simpl. rewrite List.length_app. simpl. lia. }
    { unfold turns in *. simpl in Hfuel. lia. }
    exists s', (batch_final w coll s (page_docs iso2 iso3 country path page)
                ++ ds).
    split; [done|]. split.
    { rewrite Hreq. unfold chain_requests. simpl.
      by rewrite <- !app_assoc. }
    split.
    { eapply grows_trans; [|exact Hg]. split; [done|].
      simpl. by rewrite batch_final_length. }
    split.
    { rewrite map_app, Hb. unfold chain_docs. simpl.
      by rewrite batch_final_base. }
    split.
    { rewrite map_app, Hr. unfold chain_rows. simpl.
      by rewrite batch_final_rows. }
    by rewrite Hl.
Qed.

End Chains.

(** C4: on a finite chain of pages whose last page has no next page, the
    walk ends, with fuel for one turn per page; it requests exactly the
    pages of the chain, in order, and nothing after the last one; and the
    documents it accumulates are, in page order, those of the rows of the
    pages. *)
Theorem walk_follows_chain (w : world) (coll : bool)
    (iso2 iso3 : option string) (country start : string)
    (pages : list (string * soup)) (fuel : nat) (s : state) :
  chain w (length (requests s)) (Some start) pages Finished ->
  length pages <= fuel ->
  exists s' ds,
    walk w coll iso2 iso3 country fuel (Some start) s = (Ok tt, s')
    /\ requests s'
       = requests s ++ map (fun pg => page_url (fst pg)) pages
    /\ heap s' = heap s ++ ds
    /\ all_docs s' = all_docs s ++ seq (length (heap s)) (length ds)
    /\ map row_fields ds = concat (map (fun pg => page_rows (snd pg)) pages)
    /\ map base_fields ds
       = concat (map (fun pg => page_docs iso2 iso3 country (fst pg) (snd pg))
                   pages).
Proof.
  intros Hchain Hfuel.
  destruct (walk_chain w coll iso2 iso3 country _ _ _ _ Hchain fuel s)
    as (s' & ds & Hwalk & Hreq & [Hh Ha] & Hb & Hr & _); [done| |].
  { unfold turns. lia. }
  exists s', ds. unfold chain_requests in Hreq. rewrite app_nil_r in Hreq.
  done.
Qed.

(** ** One partition *)

Lemma lookup_iso_state w name s :
  (lookup_iso w name s).2 = s
  \/ (lookup_iso w name s).2 = set_lookups (fun l => l ++ [name]) s.
Proof.
  unfold lookup_iso, lookup_iso_try.
  destruct (truthy_str name); simpl; [|by left]. right. run.
  destruct (restcountries w _ _) as [resp|]; simpl; [|done].
  destruct (status_raises resp); simpl; [done|].
  by destruct (body resp) as [|[|[? ? []|] ?]|].
Qed.

Lemma should_scrape_state w iso2 L s :
  (should_scrape w iso2 L s).2 = s \/ (should_scrape w iso2 L s).2 = tick s.
Proof.
  unfold should_scrape.
  destruct iso2 as [[|c code]|]; try by left.
  destruct (L !! _) as [[|c' last_str]|]; try by left.
  destruct (fromisoformat w _) as [last_dt|]; [|by left].
  right. run. unfold utcnow. destruct (DT.sub _ _) as [age|]; [|done].
  by destruct (age <? _)%Z.
Qed.

Section Partition.

Variables (w : world) (coll : bool).

Lemma lookup_iso_advances name : preserves (advances w coll) (lookup_iso w name).
Proof.
  intros s. destruct (lookup_iso_state w name s) as [-> | ->].
  - apply advances_refl.
  - by apply advances_frame.
Qed.

Lemma should_scrape_advances iso2 L :
  preserves (advances w coll) (should_scrape w iso2 L).
Proof.
  intros s. destruct (should_scrape_state w iso2 L s) as [-> | ->].
  - apply advances_refl.
  - by apply advances_frame.
Qed.

Lemma update_ledger_advances code :
  preserves (advances w coll)
    (utcnow w ≫= fun now =>
       modify (set_freshness (fun m => <[code := DT.isoformat now]> m))).
Proof.
  intros s. unfold utcnow. run. exists []. split.
  { split; simpl; by rewrite app_nil_r. }
  repeat split; [constructor|]. simpl. apply ledger_extends_insert.
Qed.

Lemma scrape_from_advances iso2 iso3 country fuel cur :
  preserves (advances w coll) (scrape_from w coll iso2 iso3 country fuel cur).
Proof.
  unfold scrape_from.
  apply preserves_bind; [apply advances_trans | apply walk_advances |].
  intros _. destruct iso2 as [[|c code]|];
    try (apply preserves_ret, advances_refl).
  apply update_ledger_advances.
Qed.

Lemma resume_advances iso2 iso3 country fuel cur :
  preserves (advances w coll)
    (catch (scrape_from w coll iso2 iso3 country fuel cur)
           (fun _ => mret tt)).
Proof.
  apply preserves_catch; [apply advances_trans | |].
  - apply scrape_from_advances.
  - intros _. apply preserves_ret, advances_refl.
Qed.

Lemma scrape_country_advances fuel href label :
  preserves (advances w coll) (scrape_country w fuel href label coll).
Proof.
  unfold scrape_country.
  apply preserves_bind; [apply advances_trans | apply lookup_iso_advances |].
  intros [[iso2 iso3] matched].
  apply preserves_bind;
    [apply advances_trans | apply preserves_gets, advances_refl |].
  intros L.
  apply preserves_bind;
    [apply advances_trans | apply should_scrape_advances |].
  intros [ok reason]. destruct ok; simpl.
  - apply scrape_from_advances.
  - apply preserves_ret, advances_refl.
Qed.

Lemma scrape_all_advances fuel links :
  preserves (advances w coll) (scrape_all w fuel coll links).
Proof.
  unfold scrape_all.
  apply preserves_for_each; [apply advances_refl | apply advances_trans |].
  intros link.
  apply preserves_catch; [apply advances_trans | |].
  - apply scrape_country_advances.
  - intros _. apply preserves_ret, advances_refl.
Qed.

(** No exception leaves the failure boundary of a partition. *)
Lemma scrape_all_outcome fuel links s :
  (scrape_all w fuel coll links s).1 = Ok tt
  \/ (scrape_all w fuel coll links s).1 = OutOfFuel.
Proof.
  revert s. unfold scrape_all.
  induction links as [|link links IH]; intros s; simpl; [by left|].
  unfold mbind, M_bind, catch.
  destruct (scrape_country w fuel link.1 link.2 coll s) as [[[]|e|] s1];
    simpl; [apply IH | apply IH | by right].
Qed.

End Partition.

Lemma bind_unit_ret (m : M unit) s : (m ;; mret tt) s = m s.
Proof.
  unfold mbind, M_bind, mret, M_ret.
  by destruct (m s) as [[[]|e|] s'].
Qed.

Lemma scrape_country_unfold w fuel href label coll s iso2 iso3 matched s1 :
  lookup_iso w (derive_country_name href label) s
  = (Ok (iso2, iso3, matched), s1) ->
  scrape_country w fuel href label coll s
  = match should_scrape w iso2 (freshness s1) s1 with
    | (Ok (true, _), s2) =>
        scrape_from w coll iso2 iso3 (derive_country_name href label) fuel
          (Some href) s2
    | (Ok (false, _), s2) => (Ok tt, s2)
    | (Raise e, s2) => (Raise e, s2)
    | (OutOfFuel, s2) => (OutOfFuel, s2)
    end.
Proof.
  intros Hlookup. unfold scrape_country. unfold mbind at 1, M_bind at 1.
  rewrite Hlookup. run.
  by destruct (should_scrape w iso2 (freshness s1) s1) as [[[[] r]|e|] s2].
Qed.

Lemma lookup_iso_frame w name s o s1 :
  lookup_iso w name s = (o, s1) ->
  heap s1 = heap s /\ all_docs s1 = all_docs s /\ freshness s1 = freshness s
  /\ requests s1 = requests s /\ clock_reads s1 = clock_reads s
  /\ store s1 = store s /\ store_calls s1 = store_calls s
  /\ data_file s1 = data_file s /\ freshness_file s1 = freshness_file s.
Proof.
  intros H. pose proof (lookup_iso_state w name s) as Hs.
  rewrite H in Hs. simpl in Hs. by destruct Hs as [-> | ->].
Qed.

Lemma lookup_iso_total w name s : exists r, (lookup_iso w name s).1 = Ok r.
Proof.
  unfold lookup_iso, lookup_iso_try.
  destruct (truthy_str name); simpl; [|by eexists]. run.
  destruct (restcountries w _ _) as [resp|]; simpl; eauto.
  destruct (status_raises resp); simpl; eauto.
  destruct (body resp) as [|[|[? ? []|] ?]|]; simpl; eauto.
Qed.

Lemma lookup_iso_some w name s code iso3 matched s1 :
  lookup_iso w name s = (Ok (Some code, iso3, matched), s1) ->
  s1 = set_lookups (fun l => l ++ [name]) s
  /\ resolved_to w (length (lookups s)) name code.
Proof.
  unfold lookup_iso, lookup_iso_try, resolved_to.
  destruct (truthy_str name); simpl; [|done]. run.
  destruct (restcountries w _ _) as [resp|]; simpl; [|done].
  destruct (status_raises resp) eqn:Hst; simpl; [done|].
  destruct (body resp) as [|[|[cca2 cca3 nm|] rest]|] eqn:Hb; simpl;
    try done.
  destruct nm; simpl; try done; intros [= -> <- <- <-];
    (split; [done|]); eauto 10.
Qed.

(** ** Which entries of the ledger a run touches *)

Lemma tracks_refl w s : tracks w s s.
Proof.
  split; [exists []; by rewrite app_nil_r|]. split; [done|]. by left.
Qed.

Lemma touched_widen w s s1 s2 s3 k :
  (exists more, lookups s1 = lookups s ++ more) ->
  clock_reads s <= clock_reads s1 ->
  (exists more, lookups s3 = lookups s2 ++ more) ->
  clock_reads s2 <= clock_reads s3 ->
  freshness s3 !! k = freshness s2 !! k ->
  touched w s1 s2 k -> touched w s s3 k.
Proof.
  intros [m1 Hl1] Hc1 [m3 Hl3] Hc3 Hf (i & name & n & Hi & Hn & Hr & Hcn & Hv).
  exists i, name, n. split.
  { rewrite Hl1, List.length_app in Hi. lia. }
  split.
  { rewrite Hl3. by apply lookup_app_l_Some. }
  split; [done|]. split; [lia|]. by rewrite Hf.
Qed.

Lemma tracks_trans w s1 s2 s3 : tracks w s1 s2 -> tracks w s2 s3 -> tracks w s1 s3.
Proof.
  intros ([m1 Hl1] & Hc1 & Hf1) ([m2 Hl2] & Hc2 & Hf2).
  split; [exists (m1 ++ m2); by rewrite Hl2, Hl1, app_assoc|].
  split; [lia|]. intros k.
  destruct (Hf2 k) as [Heq|Ht].
  - destruct (Hf1 k) as [Heq1|Ht1]; [left; congruence|]. right.
    apply (touched_widen w s1 s1 s2 s3 k); eauto.
    exists []. by rewrite app_nil_r.
  - right. apply (touched_widen w s1 s2 s3 s3 k); eauto.
    exists []. by rewrite app_nil_r.
Qed.

Lemma tracks_frame w s s' :
  (exists more, lookups s' = lookups s ++ more) ->
  clock_reads s <= clock_reads s' ->
  freshness s' = freshness s -> tracks w s s'.
Proof. intros Hl Hc Hf. split; [done|]. split; [done|]. left. by rewrite Hf. Qed.

Section Tracking.

Variables (w : world) (coll : bool).

Lemma lookup_iso_tracks name : preserves (tracks w) (lookup_iso w name).
Proof.
  intros s. destruct (lookup_iso_state w name s) as [-> | ->].
  - apply tracks_refl.
  - apply tracks_frame; simpl; eauto.
Qed.

Lemma should_scrape_tracks iso2 L : preserves (tracks w) (should_scrape w iso2 L).
Proof.
  intros s. destruct (should_scrape_state w iso2 L s) as [-> | ->].
  - apply tracks_refl.
  - apply tracks_frame; simpl; [exists []; by rewrite app_nil_r | lia | done].
Qed.

Lemma scrape_page_tracks iso2 iso3 country path :
  preserves (tracks w) (scrape_page w coll iso2 iso3 country path).
Proof.
  intros s.
  destruct (fetch w (length (requests s)) (page_url path)) as [page|] eqn:Hf.
  - rewrite (scrape_page_ok _ _ _ _ _ _ page) by done.
    apply tracks_frame; simpl; [exists []; by rewrite app_nil_r | | done].
    destruct (coll && _); lia.
  - rewrite scrape_page_fails by done.
    apply tracks_frame; simpl; [exists []; by rewrite app_nil_r | lia | done].
Qed.

Lemma walk_tracks iso2 iso3 country fuel cur :
  preserves (tracks w) (walk w coll iso2 iso3 country fuel cur).
Proof.
  revert cur. induction fuel as [|fuel IH]; intros [[|c p]|];
    try (apply preserves_ret, tracks_refl).
  - apply preserves_out_of_fuel, tracks_refl.
  - rewrite walk_unfold by done.
    apply preserves_bind;
      [apply tracks_trans | apply scrape_page_tracks | apply IH].
Qed.

Lemma scrape_country_tracks fuel href label :
  preserves (tracks w) (scrape_country w fuel href label coll).
Proof.
  intros s. set (name := derive_country_name href label).
  pose proof (lookup_iso_tracks name s) as T1.
  destruct (lookup_iso_total w name s) as [[[iso2 iso3] matched] Hok].
  destruct (lookup_iso w name s) as [o1 s1] eqn:Hlookup.
  simpl in Hok, T1. subst o1.
  rewrite (scrape_country_unfold _ _ _ _ _ _ _ _ _ _ Hlookup).
  pose proof (should_scrape_tracks iso2 (freshness s1) s1) as T2.
  destruct (should_scrape w iso2 (freshness s1) s1) as [[[[] r]|e|] s2];
    simpl in T2; try (simpl; by eapply tracks_trans).
  pose proof (tracks_trans _ _ _ _ T1 T2) as T12.
  unfold scrape_from. fold name. unfold mbind at 1, M_bind at 1.
  pose proof (walk_tracks iso2 iso3 name fuel (Some href) s2) as T3.
  destruct (walk w coll iso2 iso3 name fuel (Some href) s2) as [[[]|e|] s3];
    simpl in T3; try (simpl; by eapply tracks_trans).
  pose proof (tracks_trans _ _ _ _ T12 T3) as T.
  destruct iso2 as [[|c code']|]; try (simpl; done).
  set (code := String c code') in *.
  destruct (lookup_iso_some _ _ _ _ _ _ _ Hlookup) as [Hs1 Hres].
  unfold utcnow. run.
  destruct T as ([more Hl] & Hc & Hf).
  split; [by exists more|]. split; [simpl; lia|]. intros k. simpl.
  destruct (decide (code = k)) as [<-|Hne].
  - right. exists (length (lookups s)), name, (clock_reads s3).
    split; [done|]. split.
    { simpl. destruct T2 as ([m2 Hl2] & _), T3 as ([m3 Hl3] & _).
      rewrite Hl3, Hl2, Hs1. simpl. rewrite <- !app_assoc. simpl.
      by apply list_lookup_middle. }
    split; [done|]. split; [simpl; lia|]. simpl.
    by rewrite lookup_insert_eq.
  - rewrite lookup_insert_ne by done.
    destruct (Hf k) as [Heq|(i & nm & n & Hi & Hn & Hr & Hcn & Hv)];
      [by left|]. right.
    exists i, nm, n. simpl. rewrite lookup_insert_ne by done.
    repeat split; try done; lia.
Qed.

Lemma scrape_all_tracks fuel links :
  preserves (tracks w) (scrape_all w fuel coll links).
Proof.
  unfold scrape_all.
  apply preserves_for_each; [apply tracks_refl | apply tracks_trans |].
  intros link.
  apply preserves_catch; [apply tracks_trans | apply scrape_country_tracks |].
  intros _. apply preserves_ret, tracks_refl.
Qed.

End Tracking.

(** C2: when the fetch of a page of a partition fails after the pages
    [pages] of its chain were fetched, [scrape_country] raises; the
    documents of [pages] are in the accumulator and no others were added;
    the failed request is the last request of the partition; the ledger is
    as it was before the partition; and the run goes on with the next
    partition. *)
Theorem page_failure_is_contained (w : world) (fuel : nat) (coll : bool)
    (href label : string) (links : list (string * string))
    (iso2 iso3 matched : option string) (reason : string)
    (pages : list (string * soup)) (path : string) (s s1 s2 : state) :
  let country := derive_country_name href label in
  lookup_iso w country s = (Ok (iso2, iso3, matched), s1) ->
  should_scrape w iso2 (freshness s1) s1 = (Ok (true, reason), s2) ->
  chain w (length (requests s2)) (Some href) pages (FailsAt path) ->
  length pages < fuel ->
  exists s' ds,
    scrape_country w fuel href label coll s = (Raise HTTPError, s')
    /\ requests s'
       = requests s ++ map (fun pg => page_url (fst pg)) pages
         ++ [page_url path]
    /\ heap s' = heap s ++ ds
    /\ all_docs s' = all_docs s ++ seq (length (heap s)) (length ds)
    /\ map row_fields ds = concat (map (fun pg => page_rows (snd pg)) pages)
    /\ map base_fields ds
       = concat (map (fun pg => page_docs iso2 iso3 country (fst pg) (snd pg))
                   pages)
    /\ freshness s' = freshness s
    /\ scrape_all w fuel coll ((href, label) :: links) s
       = scrape_all w fuel coll links s'.
Proof.
  intros country Hlookup Hfresh Hchain Hfuel.
  destruct (walk_chain w coll iso2 iso3 country _ _ _ _ Hchain fuel s2)
    as (s' & ds & Hwalk & Hreq & [Hh Ha] & Hb & Hr & Hl); [done| |].
  { unfold turns. lia. }
  assert (Hs1 : heap s1 = heap s /\ all_docs s1 = all_docs s
                /\ freshness s1 = freshness s /\ requests s1 = requests s).
  { pose proof (lookup_iso_state w country s) as H.
    rewrite Hlookup in H. simpl in H. by destruct H as [-> | ->]. }
  assert (Hs2 : heap s2 = heap s1 /\ all_docs s2 = all_docs s1
                /\ freshness s2 = freshness s1 /\ requests s2 = requests s1).
  { pose proof (should_scrape_state w iso2 (freshness s1) s1) as H.
    rewrite Hfresh in H. simpl in H. by destruct H as [-> | ->]. }
  destruct Hs1 as (Hh1 & Ha1 & Hl1 & Hr1), Hs2 as (Hh2 & Ha2 & Hl2 & Hr2).
  assert (Hsc : scrape_country w fuel href label coll s
                = (Raise HTTPError, s')).
  { unfold scrape_country. fold country. unfold mbind at 1, M_bind at 1.
    rewrite Hlookup. run. rewrite Hfresh. simpl.
    unfold scrape_from. unfold mbind, M_bind. by rewrite Hwalk. }
  exists s', ds. split; [done|].
  split; [by rewrite Hreq, Hr2, Hr1|].
  split; [by rewrite Hh, Hh2, Hh1|].
  split; [by rewrite Ha, Ha2, Ha1, Hh2, Hh1|].
  split; [done|]. split; [done|].
  split; [by rewrite Hl, Hl2, Hl1|].
  unfold scrape_all. simpl. unfold mbind, M_bind, catch. by rewrite Hsc.
Qed.

(** ** The end of the run *)

Lemma finish_spec s :
  finish s
  = (Ok tt,
     set_freshness_file (freshness s)
       match all_docs s with
       | [] => s
       | _ :: _ => set_data_file (map json_doc (accumulated s)) s
       end).
Proof.
  unfold finish, save_freshness, accumulated. run.
  by destruct (all_docs s).
Qed.

Lemma deref_middle (h b t : list dict) :
  map (fun r => (h ++ b ++ t) !!! r) (seq (length h) (length b)) = b.
Proof.
  transitivity (map (fun r => (h ++ b) !!! r) (seq (length h) (length b)));
    [|apply deref_tail].
  apply map_ext_in. intros r [_ Hr]%in_seq. rewrite app_assoc.
  apply lookup_total_app_l. rewrite List.length_app. lia.
Qed.

Lemma rest_of_run_split w fuel fuel' coll iso2 iso3 country next links s :
  rest_of_run w fuel fuel' coll iso2 iso3 country next links s
  = (rest_of_partitions w fuel fuel' coll iso2 iso3 country next links
     ;; finish) s.
Proof.
  unfold rest_of_run, rest_of_partitions, mbind, M_bind.
  by destruct (catch _ _ s) as [[[]|e|] sa].
Qed.

(** No exception leaves the partitions that are left. *)
Lemma rest_of_partitions_outcome w fuel fuel' coll iso2 iso3 country next
    links s :
  (rest_of_partitions w fuel fuel' coll iso2 iso3 country next links s).1
  = Ok tt
  \/ (rest_of_partitions w fuel fuel' coll iso2 iso3 country next links s).1
     = OutOfFuel.
Proof.
  unfold rest_of_partitions, mbind, M_bind, catch.
  destruct (scrape_from w coll iso2 iso3 country fuel' next s)
    as [[[]|e|] sa]; simpl; try (by right); apply scrape_all_outcome.
Qed.

Lemma rest_of_partitions_advances w fuel fuel' coll iso2 iso3 country next
    links :
  preserves (advances w coll)
    (rest_of_partitions w fuel fuel' coll iso2 iso3 country next links).
Proof.
  unfold rest_of_partitions.
  apply preserves_bind; [apply advances_trans | apply resume_advances |].
  intros _. apply scrape_all_advances.
Qed.

(** C3: when the document store is configured and refuses the batch of a
    page, the turn of the loop still ends well: nothing is stored and the
    documents of the batch are appended to the accumulator. No exception
    leaves what is left of the run; whenever the partitions that are left
    come to an end, the run ends, and the file it has written holds the
    documents of the batch. *)
Theorem store_failure_keeps_batch (w : world) (iso2 iso3 : option string)
    (country path : string) (page : soup) (s : state) :
  let ds := page_docs iso2 iso3 country path page in
  let batch := batch_final w true s ds in
  fetch w (length (requests s)) (page_url path) = Some page ->
  ds <> [] ->
  insert_fails w (store_calls s) batch = true ->
  exists s',
    scrape_page w true iso2 iso3 country path s = (Ok (page_next page), s')
    /\ store s' = store s
    /\ heap s' = heap s ++ batch
    /\ all_docs s' = all_docs s ++ seq (length (heap s)) (length batch)
    /\ map base_fields batch = ds
    /\ (forall fuel fuel' links sF,
          rest_of_run w fuel fuel' true iso2 iso3 country (page_next page)
            links s' = (Ok tt, sF) ->
          exists before after,
            data_file sF = Some (before ++ map json_doc batch ++ after))
    /\ (forall fuel fuel' links,
          let partitions :=
            rest_of_partitions w fuel fuel' true iso2 iso3 country
              (page_next page) links s' in
          let run :=
            rest_of_run w fuel fuel' true iso2 iso3 country (page_next page)
              links s' in
          (forall e, run.1 <> Raise e)
          /\ (partitions.1 = Ok tt \/ partitions.1 = OutOfFuel)
          /\ (partitions.1 = Ok tt ->
              run.1 = Ok tt
              /\ exists before after,
                   data_file run.2
                   = Some (before ++ map json_doc batch ++ after))).
Proof.
  intros ds batch Hfetch Hds Hfail.
  exists (after_page w true (page_url path) ds s).
  split; [by apply scrape_page_ok|].
  split.
  { unfold after_page. cbn [store]. fold batch.
    by rewrite Hfail, andb_false_r. }
  split; [done|].
  split. { simpl. unfold batch. by rewrite batch_final_length. }
  split; [apply batch_final_base|].
  set (s' := after_page w true (page_url path) ds s).
  assert (Hfile : forall fuel fuel' links sb,
            rest_of_partitions w fuel fuel' true iso2 iso3 country
              (page_next page) links s' = (Ok tt, sb) ->
            exists before after,
              data_file (finish sb).2
              = Some (before ++ map json_doc batch ++ after)).
  { intros fuel fuel' links sb Hparts.
    pose proof (rest_of_partitions_advances w fuel fuel' true iso2 iso3
                  country (page_next page) links s') as Hadv.
    rewrite Hparts in Hadv. simpl in Hadv.
    rewrite finish_spec. destruct Hadv as (more & [Hh Hd] & _).
    assert (Hacc : accumulated sb
                   = map (fun r => heap sb !!! r) (all_docs s)
                     ++ batch ++ more).
    { unfold accumulated. rewrite Hd. simpl all_docs.
      rewrite <- app_assoc, !map_app. f_equal. f_equal.
      - rewrite Hh. simpl heap. fold batch. rewrite <- app_assoc.
        replace (length ds) with (length batch)
          by apply batch_final_length.
        apply deref_middle.
      - rewrite Hh. apply deref_tail. }
    destruct (all_docs sb) as [|r0 refs] eqn:Hrefs.
    { apply (f_equal (@length nat)) in Hd. simpl in Hd.
      rewrite !List.length_app, !length_seq in Hd.
      destruct Hds. apply nil_length_inv. lia. }
    simpl. rewrite Hacc, !map_app. eauto. }
  split.
  - intros fuel fuel' links sF. rewrite rest_of_run_split.
    unfold mbind, M_bind.
    destruct (rest_of_partitions _ _ _ _ _ _ _ _ _ s') as [[[]|e|] sb] eqn:Hp;
      try discriminate.
    intros Hfin. destruct (Hfile _ _ _ _ Hp) as (before & after & Hdata).
    rewrite Hfin in Hdata. eauto.
  - intros fuel fuel' links partitions run.
    pose proof (rest_of_partitions_outcome w fuel fuel' true iso2 iso3
                  country (page_next page) links s') as Ho.
    fold partitions in Ho.
    assert (Hrun : run = (rest_of_partitions w fuel fuel' true iso2 iso3
                            country (page_next page) links ;; finish) s')
      by apply rest_of_run_split.
    unfold mbind, M_bind in Hrun. fold partitions in Hrun.
    destruct partitions as [[[]|e|] sb] eqn:Hp; simpl in Ho.
    + split; [|split; [by left|]].
      * intros e. rewrite Hrun, finish_spec. done.
      * intros _. rewrite Hrun. split; [by rewrite finish_spec|].
        by apply (Hfile fuel fuel' links sb).
    + by destruct Ho.
    + split; [|split; [by right|done]]. intros e. by rewrite Hrun.
Qed.

(** ** The whole run *)

Lemma main_unfold w fuel s :
  main w fuel s
  = match freshness_file s with
    | Some Unreadable => (Raise JSONDecodeError, s)
    | _ =>
        match fetch w (length (requests s)) BROWSE_URL with
        | None =>
            (Raise HTTPError,
             set_requests (fun l => l ++ [BROWSE_URL])
               (set_freshness (fun _ => loaded_ledger s) s))
        | Some page =>
            (scrape_all w fuel (mongo_ping w) (links_of page) ;; finish)
              (started s)
        end
    end.
Proof.
  unfold main, load_freshness, get_country_links, fetch_html,
    get_mongo_collection, started, loaded_ledger.
  run. destruct (freshness_file s) as [[|m]|]; simpl; try done;
    destruct (fetch w _ _) as [page|]; simpl; try done;
    by destruct (mongo_ping w).
Qed.

Lemma partitions_then_finish w coll fuel links s0 sF :
  (scrape_all w fuel coll links ;; finish) s0 = (Ok tt, sF) ->
  exists s1,
    advances w coll s0 s1
    /\ sF = set_freshness_file (freshness s1)
              match all_docs s1 with
              | [] => s1
              | _ :: _ => set_data_file (map json_doc (accumulated s1)) s1
              end.
Proof.
  unfold mbind, M_bind.
  pose proof (scrape_all_advances w coll fuel links s0) as Hadv.
  destruct (scrape_all _ _ _ _ _) as [[[]|e|] s1]; try discriminate.
  rewrite finish_spec. intros [= <-]. by exists s1.
Qed.

Lemma main_started w fuel s page :
  freshness_file s <> Some Unreadable ->
  fetch w (length (requests s)) BROWSE_URL = Some page ->
  main w fuel s
  = (scrape_all w fuel (mongo_ping w) (links_of page) ;; finish) (started s).
Proof.
  intros Hfile Hdir. rewrite main_unfold, Hdir.
  by destruct (freshness_file s) as [[|m]|].
Qed.

(** What a run that ends has done. *)
Lemma main_ok w fuel s sF :
  main w fuel s = (Ok tt, sF) ->
  exists ds,
    heap sF = heap s ++ ds
    /\ all_docs sF = seq (length (heap s)) (length ds)
    /\ accumulated sF = ds
    /\ Forall (doc_ok (mongo_ping w)) ds
    /\ data_file sF = match ds with
                      | [] => data_file s
                      | _ :: _ => Some (map json_doc ds)
                      end
    /\ freshness_file sF = Some (Ledger (freshness sF))
    /\ ledger_extends w (loaded_ledger s) (freshness sF).
Proof.
  rewrite main_unfold. intros Hmain.
  assert (exists page,
            (scrape_all w fuel (mongo_ping w) (links_of page) ;; finish)
              (started s) = (Ok tt, sF)) as [page Hrun].
  { destruct (freshness_file s) as [[|m]|]; try discriminate;
      destruct (fetch w _ _) as [page|]; try discriminate; by exists page. }
  clear Hmain.
  apply partitions_then_finish in Hrun
    as (s1 & (ds & [Hh Ha] & Hok & Hd & Hl & He) & ->).
  simpl in Hh, Ha, Hd, He.
  assert (Hacc : accumulated s1 = ds).
  { unfold accumulated. rewrite Ha, Hh. apply deref_tail. }
  exists ds.
  destruct (all_docs s1) as [|r0 refs] eqn:Hrefs.
  - assert (ds = []) as ->.
    { apply nil_length_inv. apply (f_equal (@length nat)) in Ha.
      rewrite length_seq in Ha. simpl in Ha. lia. }
    simpl. rewrite Hh, Hrefs. repeat split; try done.
  - destruct ds as [|d ds]; [done|].
    rewrite Hacc. simpl. rewrite Hh, Hrefs, Ha.
    repeat split; try done.
Qed.

(** No exception leaves a run that has loaded its ledger and fetched the
    directory. *)
Lemma main_raises_only_at_start w fuel s e :
  (main w fuel s).1 = Raise e ->
  freshness_file s = Some Unreadable
  \/ fetch w (length (requests s)) BROWSE_URL = None.
Proof.
  rewrite main_unfold.
  destruct (freshness_file s) as [[|m]|]; [by left| |];
    (destruct (fetch w _ _) as [page|]; [|by right]);
    unfold mbind, M_bind;
    pose proof (scrape_all_outcome w (mongo_ping w) fuel (links_of page)
                  (started s)) as Ho;
    destruct (scrape_all _ _ _ _ _) as [[[]|e'|] s1]; simpl in *;
    try rewrite finish_spec; simpl; try done; by destruct Ho.
Qed.

(** C6: no exception leaves a run that has loaded its ledger and fetched
    the directory. A run that ends has gone through the partitions of the
    directory, and its end is this: the documents the loop left in the
    accumulator are written to the data file exactly when there are some;
    the ledger the loop left is written to the ledger file in any case, as
    a whole; nothing else changes. In that ledger an entry is the one
    loaded at the start, unless a lookup of this run resolved to its code
    and the entry is the time of a clock reading of this run. The end
    itself always returns: a run whose loop over the partitions returns,
    returns; and with no partition in the directory the run returns, the
    ledger file holds the ledger that was loaded and the data file is not
    written. *)
Theorem run_end_persists (w : world) (fuel : nat) (s : state) :
  (forall e, (main w fuel s).1 = Raise e ->
     freshness_file s = Some Unreadable
     \/ fetch w (length (requests s)) BROWSE_URL = None)
  /\ ((main w fuel s).1 = Ok tt ->
      exists page s1,
        fetch w (length (requests s)) BROWSE_URL = Some page
        /\ scrape_all w fuel (mongo_ping w) (links_of page) (started s)
           = (Ok tt, s1)
        /\ (main w fuel s).2
           = set_freshness_file (freshness s1)
               match all_docs s1 with
               | [] => s1
               | _ :: _ => set_data_file (map json_doc (accumulated s1)) s1
               end
        /\ data_file (main w fuel s).2
           = match all_docs s1 with
             | [] => data_file s
             | _ :: _ => Some (map json_doc (accumulated s1))
             end
        /\ freshness_file (main w fuel s).2 = Some (Ledger (freshness s1))
        /\ forall k,
             freshness s1 !! k = loaded_ledger s !! k
             \/ touched w (started s) s1 k)
  /\ (forall page,
        freshness_file s <> Some Unreadable ->
        fetch w (length (requests s)) BROWSE_URL = Some page ->
        (scrape_all w fuel (mongo_ping w) (links_of page) (started s)).1
        = Ok tt ->
        (main w fuel s).1 = Ok tt)
  /\ (forall page,
        freshness_file s <> Some Unreadable ->
        fetch w (length (requests s)) BROWSE_URL = Some page ->
        links_of page = [] ->
        (main w fuel s).1 = Ok tt
        /\ freshness_file (main w fuel s).2
           = Some (Ledger (loaded_ledger s))
        /\ data_file (main w fuel s).2 = data_file s).
Proof.
  split; [apply main_raises_only_at_start|].
  split; [|split].
  2:{ intros page Hfile Hdir Hloop.
      rewrite (main_started w fuel s page Hfile Hdir).
      unfold mbind, M_bind.
      destruct (scrape_all _ _ _ _ _) as [[[]|e|] s1]; simpl in Hloop;
        try done.
      by rewrite finish_spec. }
  2:{ intros page Hfile Hdir Hlinks.
      rewrite (main_started w fuel s page Hfile Hdir), Hlinks.
      change ((scrape_all w fuel (mongo_ping w) [] ;; finish) (started s))
        with (finish (started s)).
      by rewrite finish_spec. }
  rewrite main_unfold. intros Hok.
  assert (exists page,
            fetch w (length (requests s)) BROWSE_URL = Some page
            /\ main w fuel s
               = (scrape_all w fuel (mongo_ping w) (links_of page) ;; finish)
                   (started s)
            /\ ((scrape_all w fuel (mongo_ping w) (links_of page) ;; finish)
                  (started s)).1 = Ok tt) as (page & Hpage & Hmain & Hrun).
  { destruct (freshness_file s) as [[|m]|] eqn:Hfile; [done| |];
      (destruct (fetch w _ _) as [page|] eqn:Hdir; [|done]);
      exists page; (split; [done|]); (split; [|done]);
      apply main_started; congruence. }
  clear Hok. rewrite <- main_unfold, Hmain.
  exists page. unfold mbind, M_bind in *.
  pose proof (scrape_all_advances w (mongo_ping w) fuel (links_of page)
                (started s)) as (ds & _ & _ & Hd & _).
  pose proof (scrape_all_tracks w (mongo_ping w) fuel (links_of page)
                (started s)) as (_ & _ & Ht).
  destruct (scrape_all _ _ _ _ _) as [[[]|e|] s1]; try done.
  simpl in Hd, Ht. exists s1. rewrite finish_spec.
  split; [done|]. split; [done|]. split; [done|].
  split; [|split; [by destruct (all_docs s1)|exact Ht]].
  destruct (all_docs s1); simpl; [by rewrite Hd|done].
Qed.

(** ** Dictionaries *)

Lemma dict_get_set_eq k v d : dict_get k (dict_set k v d) = Some v.
Proof.
  induction d as [|[k' v'] d IH]; simpl; [by rewrite String.eqb_refl|].
  destruct (String.eqb k k') eqn:Hk; simpl; rewrite Hk; done.
Qed.

Lemma dict_get_set_ne k k' v d :
  k <> k' -> dict_get k' (dict_set k v d) = dict_get k' d.
Proof.
  intros Hne. induction d as [|[k2 v2] d IH]; simpl.
  - by destruct (String.eqb_spec k' k).
  - destruct (String.eqb_spec k k2) as [->|]; simpl.
    + by destruct (String.eqb_spec k' k2).
    + by rewrite IH.
Qed.

Lemma dict_get_json_doc k d :
  dict_get k (json_doc d) = json_default <$> dict_get k d.
Proof.
  induction d as [|[k' v'] d IH]; simpl; [done|].
  by destruct (String.eqb k k').
Qed.

Lemma dict_has_json_doc k d : dict_has k (json_doc d) = dict_has k d.
Proof.
  unfold dict_has. rewrite dict_get_json_doc. by destruct (dict_get k d).
Qed.

Lemma stamp_updated now d :
  dict_get "updatedAt" (stamp now d) = Some (VDateTime now).
Proof. apply dict_get_set_eq. Qed.

Lemma stamp_created now d :
  dict_get "createdAt" (stamp now d)
  = Some match dict_get "createdAt" d with
         | Some v => v
         | None => VDateTime now
         end.
Proof.
  unfold stamp. rewrite dict_get_set_ne by done.
  unfold dict_setdefault, dict_has.
  destruct (dict_get "createdAt" d) as [v|] eqn:Hd; [done|].
  apply dict_get_set_eq.
Qed.

Lemma doc_ok_flags coll d :
  doc_ok coll d ->
  dict_has "createdAt" d = coll /\ dict_has "updatedAt" d = coll.
Proof.
  unfold doc_ok, stamped, unstamped. destruct coll.
  - by intros [-> ->]%andb_true_iff.
  - by intros [->%negb_true_iff ->%negb_true_iff]%andb_true_iff.
Qed.

(** C10: the store writer changes the documents of a batch in place: it
    keeps a [createdAt] that is there, sets one otherwise, and always sets
    [updatedAt]; the objects it changed are the ones appended to the
    accumulator (and the ones the store was given). So every document of
    the accumulator, and of the data file, has both fields when the store
    is configured, and neither when it is not. *)
Theorem store_stamps_reach_file (w : world) :
  (forall now d,
     dict_get "updatedAt" (stamp now d) = Some (VDateTime now)
     /\ dict_get "createdAt" (stamp now d)
        = Some match dict_get "createdAt" d with
               | Some v => v
               | None => VDateTime now
               end)
  /\ (forall iso2 iso3 country path page s,
        let ds := page_docs iso2 iso3 country path page in
        let batch :=
          stored_form w (DT.as_utc (clock w (clock_reads s)))
            (length (heap s)) ds in
        fetch w (length (requests s)) (page_url path) = Some page ->
        ds <> [] ->
        exists s',
          scrape_page w true iso2 iso3 country path s
          = (Ok (page_next page), s')
          /\ heap s' = heap s ++ batch
          /\ all_docs s'
             = all_docs s ++ seq (length (heap s)) (length batch)
          /\ (insert_fails w (store_calls s) batch = false ->
              store s' = store s ++ [batch]))
  /\ (forall fuel s sF,
        main w fuel s = (Ok tt, sF) ->
        let flags d :=
          dict_has "createdAt" d = mongo_ping w
          /\ dict_has "updatedAt" d = mongo_ping w in
        Forall flags (accumulated sF)
        /\ (all_docs sF <> [] ->
            exists file, data_file sF = Some file /\ Forall flags file)).
Proof.
  split; [|split].
  - intros now d. split; [apply stamp_updated | apply stamp_created].
  - intros iso2 iso3 country path page s ds batch Hfetch Hds.
    exists (after_page w true (page_url path) ds s).
    split; [by apply scrape_page_ok|].
    unfold after_page. rewrite (batch_final_stored w s ds Hds). fold batch.
    cbn [heap all_docs store].
    split; [done|]. split.
    { unfold batch, stored_form. by rewrite length_imap. }
    intros ->. by rewrite (bool_decide_eq_false_2 _ Hds).
  - intros fuel s sF (ds & Hh & Ha & Hacc & Hok & Hd & Hl & He)%main_ok flags.
    assert (Hflags : Forall flags ds).
    { eapply Forall_impl; [exact Hok|]. apply doc_ok_flags. }
    split; [by rewrite Hacc|]. intros Hne.
    destruct ds as [|d ds]; [by rewrite Ha in Hne|].
    exists (map json_doc (d :: ds)). split; [done|].
    apply Forall_map. eapply Forall_impl; [exact Hflags|].
    intros d' [H1 H2]. unfold flags. by rewrite !dict_has_json_doc.
Qed.

(** ** The end-to-end scenario *)

Lemma lookup_iso_first w name s resp cca2 cca3 common rest :
  name <> "" ->
  restcountries w (length (lookups s)) name = Some resp ->
  status_raises resp = false ->
  body resp = JsonList (Candidate cca2 cca3 (NameObject common) :: rest) ->
  lookup_iso w name s
  = (Ok (cca2, cca3, common), set_lookups (fun l => l ++ [name]) s).
Proof.
  intros Hname%truthy_str_true Hresp Hst Hbody.
  unfold lookup_iso, lookup_iso_try. rewrite Hname. run.
  by rewrite Hresp, Hst, Hbody.
Qed.

(** C5 (as stated, refuted): in the scenario the document written to the
    file has the country ["x"], the text of the reference before its first
    underscore, and not the label ["X"]. *)
Lemma scenario_country_is_not_label :
  (main (x_world false) 1 initial_state).1 = Ok tt
  /\ data_file (main (x_world false) 1 initial_state).2
     = Some [x_document (Some "XXX") "x"]
  /\ data_file (main (x_world false) 1 initial_state).2
     <> Some [x_document (Some "XXX") "X"]
  /\ data_file (main (x_world true) 1 initial_state).2
     <> Some [x_document (Some "XXX") "x"].
Proof. vm_compute. repeat split; discriminate. Qed.

(** C5 (amended): in the scenario the file holds exactly one document. Its
    fields are those of the expected document, except that [country] is
    ["x"]; when the document store is configured they are followed by
    [createdAt], [updatedAt] and [_id]. The ledger maps ["XX"] to the time
    read when the partition was done. *)
Theorem end_to_end_scenario (w : world) (fuel : nat) (s : state)
    (iso3 common : option string) (rest : list candidate)
    (directory page : soup) (resp : response) :
  let stamp_time := DT.as_utc (clock w (clock_reads s)) in
  let run_time :=
    DT.as_utc (clock w (clock_reads s + if mongo_ping w then 1 else 0)) in
  freshness_file s <> Some Unreadable ->
  loaded_ledger s !! "XX" = None ->
  fetch w (length (requests s)) BROWSE_URL = Some directory ->
  anchors directory = [(Some "/x_swift_codes.html", "X")] ->
  restcountries w (length (lookups s)) "x" = Some resp ->
  status_raises resp = false ->
  body resp = JsonList (Candidate (Some "XX") iso3 (NameObject common) :: rest) ->
  fetch w (S (length (requests s))) (page_url "/x_swift_codes.html")
  = Some page ->
  page_rows page
  = [[("name", VStr "Bank A"); ("swift_code", VStr "AAAABBCC");
      ("city", VStr "Town"); ("branch", VStr "HQ")]] ->
  page_next page = None ->
  0 < fuel ->
  exists sF,
    main w fuel s = (Ok tt, sF)
    /\ data_file sF
       = Some [x_document iso3 "x"
               ++ if mongo_ping w
                  then [("createdAt", VStr (DT.to_str stamp_time));
                        ("updatedAt", VStr (DT.to_str stamp_time));
                        ("_id", VStr (object_id w (length (heap s))))]
                  else []]
    /\ freshness_file sF
       = Some (Ledger (<["XX" := DT.isoformat run_time]> (loaded_ledger s))).
Proof.
  intros stamp_time run_time Hfile Hnew Hdir Hanchors Hresp Hst Hbody Hpage
    Hrows Hnext Hfuel.
  destruct fuel as [|fuel]; [lia|].
  rewrite (main_started w _ s directory Hfile Hdir).
  assert (Hlinks : links_of directory = [("/x_swift_codes.html", "X")])
    by (unfold links_of; by rewrite Hanchors).
  rewrite Hlinks.
  set (s0 := started s).
  set (s1 := set_lookups (fun l => l ++ ["x"]) s0).
  set (path := "/x_swift_codes.html").
  assert (Hlook : lookup_iso w "x" s0 = (Ok (Some "XX", iso3, common), s1))
    by (by apply (lookup_iso_first w "x" s0 resp _ _ _ rest)).
  assert (Hfresh : should_scrape w (Some "XX") (freshness s1) s1
                   = (Ok (true, "No previous scrape recorded."), s1))
    by (apply should_scrape_no_record; [done | by left]).
  assert (Hturn : scrape_page w (mongo_ping w) (Some "XX") iso3 "x" path s1
                  = (Ok None,
                     after_page w (mongo_ping w) (page_url path)
                       [x_document iso3 "x"] s1)).
  { rewrite (scrape_page_ok _ _ _ _ _ _ page).
    - unfold page_docs. by rewrite Hrows, Hnext.
    - simpl. rewrite List.length_app. simpl.
      by rewrite Nat.add_1_r. }
  set (s2 := after_page w (mongo_ping w) (page_url path)
               [x_document iso3 "x"] s1) in *.
  assert (Hrun : scrape_all w (S fuel) (mongo_ping w) [(path, "X")] s0
                 = (Ok tt,
                    set_freshness
                      (fun m => <["XX" := DT.isoformat
                                   (DT.as_utc (clock w (clock_reads s2)))]> m)
                      (tick s2))).
  { unfold scrape_all. simpl for_each. unfold mbind at 1, M_bind at 1, catch.
    unfold scrape_country.
    change (derive_country_name path "X") with "x".
    unfold mbind at 1, M_bind at 1. rewrite Hlook.
    unfold mbind at 1, M_bind at 1, gets.
    unfold mbind at 1, M_bind at 1. rewrite Hfresh. cbn [negb].
    unfold scrape_from. unfold mbind at 1, M_bind at 1.
    rewrite walk_unfold by done. unfold mbind at 1, M_bind at 1.
    rewrite Hturn. unfold walk. run. by destruct fuel. }
  unfold mbind, M_bind. rewrite Hrun, finish_spec.
  eexists. split; [reflexivity|].
  unfold s2, s1, s0, started, after_page, accumulated.
  destruct (mongo_ping w); simpl.
  - unfold stored_form. cbn [imap].
    rewrite list_lookup_total_middle, Nat.add_0_r by done.
    split; [by destruct iso3|]. unfold run_time. by rewrite Nat.add_1_r.
  - rewrite list_lookup_total_middle by done.
    split; [by destruct iso3|]. unfold run_time. by rewrite Nat.add_0_r.
Qed.

Lemma end_to_end_scenario_witness :
  exists sF,
    main (x_world true) 1 initial_state = (Ok tt, sF)
    /\ data_file sF
       = Some [x_document (Some "XXX") "x"
               ++ [("createdAt", VStr "2025-06-01 12:00:00+00:00");
                   ("updatedAt", VStr "2025-06-01 12:00:00+00:00");
                   ("_id", VStr "65f0c0ffee00000000000000")]]
    /\ freshness_file sF
       = Some (Ledger (<["XX" := "2025-06-01T12:00:01+00:00"]> ∅)).
Proof.
  apply (end_to_end_scenario (x_world true) 1 initial_state
           (Some "XXX") (Some "Xland") [] x_directory x_page
           {| status_code := 200;
              body := JsonList [Candidate (Some "XX") (Some "XXX")
                                  (NameObject (Some "Xland"))] |});
    try reflexivity; try discriminate. lia.
Defined.

(** ** The theorems at sample worlds *)

(** The three pages of partition [N], walked from the first. *)
Lemma walk_follows_chain_witness :
  exists s' ds,
    walk (n_world None false false) false (Some "NN") (Some "NNN") "n" 3
      (Some "/n_swift_codes.html") initial_state = (Ok tt, s')
    /\ requests s'
       = requests initial_state
         ++ map (fun pg => page_url (fst pg))
              [(n_path 1, n_page 1); (n_path 2, n_page 2);
               (n_path 3, n_page 3)]
    /\ heap s' = heap initial_state ++ ds
    /\ all_docs s'
       = all_docs initial_state
         ++ seq (length (heap initial_state)) (length ds)
    /\ map row_fields ds
       = concat (map (fun pg => page_rows (snd pg))
                   [(n_path 1, n_page 1); (n_path 2, n_page 2);
                    (n_path 3, n_page 3)])
    /\ map base_fields ds
       = concat (map (fun pg => page_docs (Some "NN") (Some "NNN") "n"
                                  (fst pg) (snd pg))
                   [(n_path 1, n_page 1); (n_path 2, n_page 2);
                    (n_path 3, n_page 3)]).
Proof.
  apply (walk_follows_chain (n_world None false false) false
           (Some "NN") (Some "NNN") "n" "/n_swift_codes.html"
           [(n_path 1, n_page 1); (n_path 2, n_page 2); (n_path 3, n_page 3)]
           3 initial_state).
  - apply (chain_page _ _ (n_path 1) (n_page 1));
      [discriminate | reflexivity |].
    apply (chain_page _ _ (n_path 2) (n_page 2));
      [discriminate | reflexivity |].
    apply (chain_page _ _ (n_path 3) (n_page 3));
      [discriminate | reflexivity |].
    apply chain_finished. reflexivity.
  - simpl. lia.
Defined.

(** Partition [N] when its second page cannot be fetched. *)
Lemma page_failure_is_contained_witness :
  exists s' ds,
    scrape_country (n_world (Some 2) true false) 3
      "/n_swift_codes.html" "N" true initial_state = (Raise HTTPError, s')
    /\ requests s'
       = requests initial_state
         ++ map (fun pg => page_url (fst pg)) [(n_path 1, n_page 1)]
         ++ [page_url (n_path 2)]
    /\ heap s' = heap initial_state ++ ds
    /\ all_docs s'
       = all_docs initial_state
         ++ seq (length (heap initial_state)) (length ds)
    /\ map row_fields ds
       = concat (map (fun pg => page_rows (snd pg)) [(n_path 1, n_page 1)])
    /\ map base_fields ds
       = concat (map (fun pg =>
                        page_docs (Some "NN") (Some "NNN")
                          (derive_country_name "/n_swift_codes.html" "N")
                          (fst pg) (snd pg))
                   [(n_path 1, n_page 1)])
    /\ freshness s' = freshness initial_state
    /\ scrape_all (n_world (Some 2) true false) 3 true
         [("/n_swift_codes.html", "N"); ("/x_swift_codes.html", "X")]
         initial_state
       = scrape_all (n_world (Some 2) true false) 3 true
           [("/x_swift_codes.html", "X")] s'.
Proof.
  apply (page_failure_is_contained (n_world (Some 2) true false) 3 true
           "/n_swift_codes.html" "N" [("/x_swift_codes.html", "X")]
           (Some "NN") (Some "NNN") (Some "Nland")
           "No previous scrape recorded."
           [(n_path 1, n_page 1)] (n_path 2) initial_state
           (set_lookups (fun l => l ++ ["n"]) initial_state)
           (set_lookups (fun l => l ++ ["n"]) initial_state)).
  - reflexivity.
  - reflexivity.
  - apply (chain_page _ _ (n_path 1) (n_page 1));
      [discriminate | reflexivity |].
    apply chain_fails; [discriminate | reflexivity].
  - simpl. lia.
Defined.

(** The first page of partition [N] during an outage of the store, and
    the rest of that run: it ends, and the first two documents of its file
    are those of the refused batch. *)
Lemma store_failure_keeps_batch_witness :
  (rest_of_run (n_world None true true) 5 5 true (Some "NN") (Some "NNN")
     "n" (page_next (n_page 1)) [("/x_swift_codes.html", "X")]
     (scrape_page (n_world None true true) true (Some "NN") (Some "NNN")
        "n" (n_path 1) initial_state).2).1 = Ok tt
  /\ take 2 <$>
       data_file
         (rest_of_run (n_world None true true) 5 5 true (Some "NN")
            (Some "NNN") "n" (page_next (n_page 1))
            [("/x_swift_codes.html", "X")]
            (scrape_page (n_world None true true) true (Some "NN")
               (Some "NNN") "n" (n_path 1) initial_state).2).2
     = Some (map json_doc
               (batch_final (n_world None true true) true initial_state
                  (page_docs (Some "NN") (Some "NNN") "n" (n_path 1)
                     (n_page 1))))
  /\ exists s',
    scrape_page (n_world None true true) true (Some "NN") (Some "NNN") "n"
      (n_path 1) initial_state = (Ok (page_next (n_page 1)), s')
    /\ store s' = store initial_state
    /\ heap s'
       = heap initial_state
         ++ batch_final (n_world None true true) true initial_state
              (page_docs (Some "NN") (Some "NNN") "n" (n_path 1) (n_page 1))
    /\ all_docs s'
       = all_docs initial_state
         ++ seq (length (heap initial_state))
              (length (batch_final (n_world None true true) true
                         initial_state
                         (page_docs (Some "NN") (Some "NNN") "n" (n_path 1)
                            (n_page 1))))
    /\ map base_fields
         (batch_final (n_world None true true) true initial_state
            (page_docs (Some "NN") (Some "NNN") "n" (n_path 1) (n_page 1)))
       = page_docs (Some "NN") (Some "NNN") "n" (n_path 1) (n_page 1)
    /\ (forall fuel fuel' links sF,
         rest_of_run (n_world None true true) fuel fuel' true (Some "NN")
           (Some "NNN") "n" (page_next (n_page 1)) links s' = (Ok tt, sF) ->
         exists before after,
           data_file sF
           = Some (before
                   ++ map json_doc
                        (batch_final (n_world None true true) true
                           initial_state
                           (page_docs (Some "NN") (Some "NNN") "n"
                              (n_path 1) (n_page 1)))
                   ++ after))
    /\ (forall fuel fuel' links,
          (forall e,
             (rest_of_run (n_world None true true) fuel fuel' true
                (Some "NN") (Some "NNN") "n" (page_next (n_page 1)) links
                s').1 <> Raise e)
          /\ ((rest_of_partitions (n_world None true true) fuel fuel' true
                 (Some "NN") (Some "NNN") "n" (page_next (n_page 1)) links
                 s').1 = Ok tt
              \/ (rest_of_partitions (n_world None true true) fuel fuel' true
                    (Some "NN") (Some "NNN") "n" (page_next (n_page 1))
                    links s').1 = OutOfFuel)
          /\ ((rest_of_partitions (n_world None true true) fuel fuel' true
                 (Some "NN") (Some "NNN") "n" (page_next (n_page 1)) links
                 s').1 = Ok tt ->
              (rest_of_run (n_world None true true) fuel fuel' true
                 (Some "NN") (Some "NNN") "n" (page_next (n_page 1)) links
                 s').1 = Ok tt
              /\ exists before after,
                   data_file
                     (rest_of_run (n_world None true true) fuel fuel' true
                        (Some "NN") (Some "NNN") "n" (page_next (n_page 1))
                        links s').2
                   = Some (before
                           ++ map json_doc
                                (batch_final (n_world None true true) true
                                   initial_state
                                   (page_docs (Some "NN") (Some "NNN") "n"
                                      (n_path 1) (n_page 1)))
                           ++ after))).
Proof.
  split; [vm_compute; reflexivity|]. split; [vm_compute; reflexivity|].
  apply (store_failure_keeps_batch (n_world None true true)
           (Some "NN") (Some "NNN") "n" (n_path 1) (n_page 1) initial_state).
  - reflexivity.
  - discriminate.
  - reflexivity.
Defined.

(** A whole run over the two partitions, with the store configured: it
    ends, and its data file holds the five documents. *)
Lemma run_end_persists_witness :
  (main (n_world None true false) 5 initial_state).1 = Ok tt
  /\ length <$> data_file (main (n_world None true false) 5 initial_state).2
     = Some 5
  /\ exists page s1,
       fetch (n_world None true false) (length (requests initial_state))
         BROWSE_URL = Some page
       /\ scrape_all (n_world None true false) 5
            (mongo_ping (n_world None true false)) (links_of page)
            (started initial_state)
          = (Ok tt, s1)
       /\ (main (n_world None true false) 5 initial_state).2
          = set_freshness_file (freshness s1)
              match all_docs s1 with
              | [] => s1
              | _ :: _ => set_data_file (map json_doc (accumulated s1)) s1
              end
       /\ data_file (main (n_world None true false) 5 initial_state).2
          = match all_docs s1 with
            | [] => data_file initial_state
            | _ :: _ => Some (map json_doc (accumulated s1))
            end
       /\ freshness_file (main (n_world None true false) 5 initial_state).2
          = Some (Ledger (freshness s1))
       /\ forall k,
            freshness s1 !! k = loaded_ledger initial_state !! k
            \/ touched (n_world None true false) (started initial_state)
                 s1 k.
Proof.
  split; [vm_compute; reflexivity|]. split; [vm_compute; reflexivity|].
  apply (proj1 (proj2 (run_end_persists (n_world None true false) 5
                         initial_state))).
  vm_compute. reflexivity.
Defined.

(** * Further properties of the code *)

(** ** The rows of a page *)

Lemma zip_rows_length ns ss cs bs :
  length (zip_rows ns ss cs bs)
  = Nat.min (Nat.min (Nat.min (length ns) (length ss)) (length cs))
      (length bs).
Proof.
  revert ss cs bs. induction ns as [|n ns IH]; intros [|s ss] [|c cs] [|b bs];
    simpl; try lia. rewrite IH. lia.
Qed.

Lemma zip_rows_lookup ns ss cs bs i n s c b :
  ns !! i = Some n -> ss !! i = Some s -> cs !! i = Some c ->
  bs !! i = Some b ->
  zip_rows ns ss cs bs !! i
  = Some [("name", VStr n); ("swift_code", VStr s);
          ("city", VStr c); ("branch", VStr b)].
Proof.
  revert ss cs bs i.
  induction ns as [|n0 ns IH]; intros [|s0 ss] [|c0 cs] [|b0 bs] [|i];
    simpl; try done.
  - by intros [= ->] [= ->] [= ->] [= ->].
  - apply IH.
Qed.

(** The rows of a page are as many as its shortest column has cells, and
    the row at a position holds the cells of the four columns at that
    position: cells beyond the shortest column are dropped. *)
Theorem page_rows_truncate (page : soup) :
  length (page_rows page)
  = Nat.min (Nat.min (Nat.min (length (names page)) (length (swifts page)))
               (length (cities page)))
      (length (branches page))
  /\ forall i n s c b,
       names page !! i = Some n -> swifts page !! i = Some s ->
       cities page !! i = Some c -> branches page !! i = Some b ->
       page_rows page !! i
       = Some [("name", VStr n); ("swift_code", VStr s);
               ("city", VStr c); ("branch", VStr b)].
Proof.
  split; [apply zip_rows_length|]. intros. by apply zip_rows_lookup.
Qed.

(** ** The start of a run *)

(** A ledger file that cannot be read stops the run before any request; a
    directory that cannot be fetched stops it after that one request. In
    both cases neither file is written. *)
Theorem main_fatal_at_start (w : world) (fuel : nat) (s : state) :
  (freshness_file s = Some Unreadable ->
   main w fuel s = (Raise JSONDecodeError, s))
  /\ (freshness_file s <> Some Unreadable ->
      fetch w (length (requests s)) BROWSE_URL = None ->
      (main w fuel s).1 = Raise HTTPError
      /\ requests (main w fuel s).2 = requests s ++ [BROWSE_URL]
      /\ data_file (main w fuel s).2 = data_file s
      /\ freshness_file (main w fuel s).2 = freshness_file s
      /\ heap (main w fuel s).2 = heap s
      /\ all_docs (main w fuel s).2 = all_docs s).
Proof.
  split.
  - intros H. by rewrite main_unfold, H.
  - intros Hfile Hdir.
    assert (Hmain : main w fuel s
                    = (Raise HTTPError,
                       set_requests (fun l => l ++ [BROWSE_URL])
                         (set_freshness (fun _ => loaded_ledger s) s))).
    { rewrite main_unfold, Hdir. by destruct (freshness_file s) as [[|m]|]. }
    by rewrite Hmain.
Qed.

(** ** One partition, by the decision taken *)

(** A partition scraped less than four weeks ago is skipped: no page is
    requested, no document is added and the ledger stays as it is. *)
Theorem fresh_partition_is_skipped (w : world) (fuel : nat) (coll : bool)
    (href label code last_str : string) (iso3 matched : option string)
    (last_dt : DT.datetime) (age : Z) (s s1 : state) :
  lookup_iso w (derive_country_name href label) s
  = (Ok (Some code, iso3, matched), s1) ->
  code <> "" ->
  freshness s !! code = Some last_str -> last_str <> "" ->
  fromisoformat w last_str = Some last_dt ->
  DT.sub (DT.as_utc (clock w (clock_reads s))) last_dt = Some age ->
  (age < DT.weeks 4)%Z ->
  scrape_country w fuel href label coll s = (Ok tt, tick s1)
  /\ requests (tick s1) = requests s
  /\ heap (tick s1) = heap s
  /\ all_docs (tick s1) = all_docs s
  /\ freshness (tick s1) = freshness s.
Proof.
  intros Hlookup Hcode HL Hlast Hparse Hsub Hage.
  destruct (lookup_iso_frame _ _ _ _ _ Hlookup)
    as (Hh & Ha & Hf & Hr & Hc & _).
  rewrite (scrape_country_unfold _ _ _ _ _ _ _ _ _ _ Hlookup).
  rewrite (should_scrape_parsed w code _ s1 last_str) by (by rewrite ?Hf).
  rewrite Hparse, Hc, Hsub.
  apply Z.ltb_lt in Hage. unfold FRESHNESS_WEEKS. rewrite Hage.
  by rewrite <- Hh, <- Ha, <- Hf, <- Hr.
Qed.

(** The second run of the end-to-end scenario, one second after the
    first. *)
Lemma fresh_partition_is_skipped_witness :
  scrape_country (x_world false) 1 "/x_swift_codes.html" "X" false
    (main (x_world false) 1 initial_state).2
  = (Ok tt,
     tick (set_lookups (fun l => l ++ ["x"])
             (main (x_world false) 1 initial_state).2))
  /\ requests (tick (set_lookups (fun l => l ++ ["x"])
                       (main (x_world false) 1 initial_state).2))
     = requests (main (x_world false) 1 initial_state).2
  /\ heap (tick (set_lookups (fun l => l ++ ["x"])
                   (main (x_world false) 1 initial_state).2))
     = heap (main (x_world false) 1 initial_state).2
  /\ all_docs (tick (set_lookups (fun l => l ++ ["x"])
                       (main (x_world false) 1 initial_state).2))
     = all_docs (main (x_world false) 1 initial_state).2
  /\ freshness (tick (set_lookups (fun l => l ++ ["x"])
                        (main (x_world false) 1 initial_state).2))
     = freshness (main (x_world false) 1 initial_state).2.
Proof.
  apply (fresh_partition_is_skipped (x_world false) 1 false
           "/x_swift_codes.html" "X" "XX" "2025-06-01T12:00:00+00:00"
           (Some "XXX") (Some "Xland")
           (DT.mk 2025 6 1 12 0 0 0 (Some 0%Z)) 1000000%Z).
  - vm_compute. reflexivity.
  - discriminate.
  - vm_compute. reflexivity.
  - discriminate.
  - vm_compute. reflexivity.
  - vm_compute. reflexivity.
  - vm_compute. reflexivity.
Defined.

(** A partition whose identity was not resolved is walked whatever the
    ledger holds, and the ledger is not changed by it. *)
Theorem unresolved_partition_is_walked (w : world) (fuel : nat) (coll : bool)
    (href label : string) (iso2 iso3 matched : option string)
    (s s1 : state) :
  lookup_iso w (derive_country_name href label) s
  = (Ok (iso2, iso3, matched), s1) ->
  truthy iso2 = false ->
  scrape_country w fuel href label coll s
  = walk w coll iso2 iso3 (derive_country_name href label) fuel
      (Some href) s1
  /\ freshness (scrape_country w fuel href label coll s).2 = freshness s.
Proof.
  intros Hlookup Hiso.
  destruct (lookup_iso_frame _ _ _ _ _ Hlookup) as (_ & _ & Hf & _).
  assert (Hsc : scrape_country w fuel href label coll s
                = walk w coll iso2 iso3 (derive_country_name href label) fuel
                    (Some href) s1).
  { rewrite (scrape_country_unfold _ _ _ _ _ _ _ _ _ _ Hlookup).
    rewrite should_scrape_absent by done. unfold scrape_from.
    apply truthy_false in Hiso as [-> | ->]; apply bind_unit_ret. }
  split; [done|]. by rewrite Hsc, walk_ledger.
Qed.

(** A partition that the identity service does not know, and whose page
    cannot be fetched. *)
Lemma unresolved_partition_is_walked_witness :
  scrape_country (n_world None false false) 3 "/q_swift_codes.html" "Q" false
    initial_state
  = walk (n_world None false false) false None None
      (derive_country_name "/q_swift_codes.html" "Q") 3
      (Some "/q_swift_codes.html")
      (set_lookups (fun l => l ++ ["q"]) initial_state)
  /\ freshness (scrape_country (n_world None false false) 3
                  "/q_swift_codes.html" "Q" false initial_state).2
     = freshness initial_state.
Proof.
  apply (unresolved_partition_is_walked (n_world None false false) 3 false
           "/q_swift_codes.html" "Q" None None None).
  - vm_compute. reflexivity.
  - reflexivity.
Defined.

(** A partition walked to the end of its chain is recorded in the ledger:
    its code is mapped to the time read after the walk, and the other
    entries stay as they are. *)
Theorem finished_partition_is_recorded (w : world) (fuel : nat) (coll : bool)
    (href label code reason : string) (iso3 matched : option string)
    (pages : list (string * soup)) (s s1 s2 : state) :
  lookup_iso w (derive_country_name href label) s
  = (Ok (Some code, iso3, matched), s1) ->
  code <> "" ->
  should_scrape w (Some code) (freshness s1) s1 = (Ok (true, reason), s2) ->
  chain w (length (requests s2)) (Some href) pages Finished ->
  length pages <= fuel ->
  exists s3,
    walk w coll (Some code) iso3 (derive_country_name href label) fuel
      (Some href) s2 = (Ok tt, s3)
    /\ scrape_country w fuel href label coll s
       = (Ok tt,
          set_freshness
            (fun m => <[code := DT.isoformat
                                  (DT.as_utc (clock w (clock_reads s3)))]> m)
            (tick s3))
    /\ freshness (scrape_country w fuel href label coll s).2
       = <[code := DT.isoformat (DT.as_utc (clock w (clock_reads s3)))]>
           (freshness s).
Proof.
  intros Hlookup Hcode Hfresh Hchain Hfuel.
  destruct (lookup_iso_frame _ _ _ _ _ Hlookup) as (_ & _ & Hf1 & _).
  assert (Hf2 : freshness s2 = freshness s1).
  { pose proof (should_scrape_state w (Some code) (freshness s1) s1) as H.
    rewrite Hfresh in H. simpl in H. by destruct H as [-> | ->]. }
  destruct (walk_chain w coll (Some code) iso3
              (derive_country_name href label) _ _ _ _ Hchain fuel s2)
    as (s3 & ds & Hwalk & _ & _ & _ & _ & Hf3); [done| |].
  { unfold turns. lia. }
  exists s3. split; [done|].
  assert (Hsc : scrape_country w fuel href label coll s
                = (Ok tt,
                   set_freshness
                     (fun m => <[code := DT.isoformat
                                   (DT.as_utc (clock w (clock_reads s3)))]> m)
                     (tick s3))).
  { rewrite (scrape_country_unfold _ _ _ _ _ _ _ _ _ _ Hlookup), Hfresh.
    unfold scrape_from. unfold mbind at 1, M_bind at 1. rewrite Hwalk.
    simpl. by destruct code. }
  split; [done|]. rewrite Hsc. simpl. by rewrite Hf3, Hf2, Hf1.
Qed.

Lemma finished_partition_is_recorded_witness :
  exists s3,
    walk (x_world false) false (Some "XX") (Some "XXX")
      (derive_country_name "/x_swift_codes.html" "X") 1
      (Some "/x_swift_codes.html")
      (set_lookups (fun l => l ++ ["x"]) initial_state) = (Ok tt, s3)
    /\ scrape_country (x_world false) 1 "/x_swift_codes.html" "X" false
         initial_state
       = (Ok tt,
          set_freshness
            (fun m => <["XX" := DT.isoformat
                                  (DT.as_utc (clock (x_world false)
                                                (clock_reads s3)))]> m)
            (tick s3))
    /\ freshness (scrape_country (x_world false) 1 "/x_swift_codes.html" "X"
                    false initial_state).2
       = <["XX" := DT.isoformat
                     (DT.as_utc (clock (x_world false) (clock_reads s3)))]>
           (freshness initial_state).
Proof.
  apply (finished_partition_is_recorded (x_world false) 1 false
           "/x_swift_codes.html" "X" "XX" "No previous scrape recorded."
           (Some "XXX") (Some "Xland") [("/x_swift_codes.html", x_page)]
           initial_state
           (set_lookups (fun l => l ++ ["x"]) initial_state)
           (set_lookups (fun l => l ++ ["x"]) initial_state)).
  - reflexivity.
  - discriminate.
  - reflexivity.
  - apply (chain_page _ _ "/x_swift_codes.html" x_page);
      [discriminate | reflexivity |].
    apply chain_finished. reflexivity.
  - simpl. lia.
Defined.

(** A ledger entry that parses to a time without a zone blocks its
    partition: [scrape_country] raises before any page is requested, the
    entry is left as it is, and the run goes on with the next partition. *)
Theorem naive_entry_blocks_partition (w : world) (fuel : nat) (coll : bool)
    (href label code last_str : string) (iso3 matched : option string)
    (last_dt : DT.datetime) (links : list (string * string))
    (s s1 : state) :
  lookup_iso w (derive_country_name href label) s
  = (Ok (Some code, iso3, matched), s1) ->
  code <> "" ->
  freshness s !! code = Some last_str -> last_str <> "" ->
  fromisoformat w last_str = Some last_dt ->
  DT.tzinfo last_dt = None ->
  scrape_country w fuel href label coll s = (Raise TypeError, tick s1)
  /\ requests (tick s1) = requests s
  /\ all_docs (tick s1) = all_docs s
  /\ freshness (tick s1) = freshness s
  /\ scrape_all w fuel coll ((href, label) :: links) s
     = scrape_all w fuel coll links (tick s1).
Proof.
  intros Hlookup Hcode HL Hlast Hparse Htz.
  destruct (lookup_iso_frame _ _ _ _ _ Hlookup)
    as (Hh & Ha & Hf & Hr & Hc & _).
  assert (Hsc : scrape_country w fuel href label coll s
                = (Raise TypeError, tick s1)).
  { rewrite (scrape_country_unfold _ _ _ _ _ _ _ _ _ _ Hlookup).
    rewrite (should_scrape_parsed w code _ s1 last_str) by (by rewrite ?Hf).
    rewrite Hparse. unfold DT.sub. simpl. by rewrite Htz. }
  split; [done|]. split; [by rewrite <- Hr|]. split; [by rewrite <- Ha|].
  split; [by rewrite <- Hf|].
  unfold scrape_all. simpl. unfold mbind, M_bind, catch. by rewrite Hsc.
Qed.

Lemma naive_entry_blocks_partition_witness :
  scrape_country (x_world false) 1 "/x_swift_codes.html" "X" false
    naive_ledger_state
  = (Raise TypeError,
     tick (set_lookups (fun l => l ++ ["x"]) naive_ledger_state))
  /\ requests (tick (set_lookups (fun l => l ++ ["x"]) naive_ledger_state))
     = requests naive_ledger_state
  /\ all_docs (tick (set_lookups (fun l => l ++ ["x"]) naive_ledger_state))
     = all_docs naive_ledger_state
  /\ freshness (tick (set_lookups (fun l => l ++ ["x"]) naive_ledger_state))
     = freshness naive_ledger_state
  /\ scrape_all (x_world false) 1 false [("/x_swift_codes.html", "X")]
       naive_ledger_state
     = scrape_all (x_world false) 1 false []
         (tick (set_lookups (fun l => l ++ ["x"]) naive_ledger_state)).
Proof.
  apply (naive_entry_blocks_partition (x_world false) 1 false
           "/x_swift_codes.html" "X" "XX" "2025-05-31T12:00:00"
           (Some "XXX") (Some "Xland") (DT.mk 2025 5 31 12 0 0 0 None) []).
  - reflexivity.
  - discriminate.
  - vm_compute. reflexivity.
  - discriminate.
  - vm_compute. reflexivity.
  - reflexivity.
Defined.

(** ** The document store writer *)

Lemma base_fields_set k v d :
  is_store_key k = true -> base_fields (dict_set k v d) = base_fields d.
Proof.
  intros Hk. unfold base_fields, dict in *.
  induction d as [|[k' v'] d IH]; cbn [dict_set].
  - rewrite filter_cons_False; [done|]. simpl. by rewrite Hk.
  - destruct (String.eqb_spec k k') as [<-|Hne].
    + rewrite !filter_cons_False; [done| |]; simpl; by rewrite Hk.
    + rewrite !filter_cons. simpl. by rewrite IH.
Qed.

Lemma base_fields_setdefault k v d :
  is_store_key k = true -> base_fields (dict_setdefault k v d) = base_fields d.
Proof.
  intros Hk. unfold dict_setdefault. destruct (dict_has k d); [done|].
  by apply base_fields_set.
Qed.

Lemma base_fields_stored w now r d :
  base_fields (give_id w r (stamp now d)) = base_fields d.
Proof.
  unfold give_id, stamp.
  by rewrite base_fields_setdefault, base_fields_set, base_fields_setdefault.
Qed.

Lemma dict_has_set k v d : dict_has k (dict_set k v d) = true.
Proof. unfold dict_has. by rewrite dict_get_set_eq. Qed.

Lemma dict_has_set_other k k' v d :
  dict_has k' d = true -> dict_has k' (dict_set k v d) = true.
Proof.
  unfold dict_has. destruct (String.eqb_spec k k') as [->|Hne].
  - by rewrite dict_get_set_eq.
  - by rewrite dict_get_set_ne.
Qed.

Lemma dict_has_setdefault k v d : dict_has k (dict_setdefault k v d) = true.
Proof.
  unfold dict_setdefault. destruct (dict_has k d) eqn:H; [done|].
  apply dict_has_set.
Qed.

Lemma dict_has_setdefault_other k k' v d :
  dict_has k' d = true -> dict_has k' (dict_setdefault k v d) = true.
Proof.
  intros H. unfold dict_setdefault. destruct (dict_has k d); [done|].
  by apply dict_has_set_other.
Qed.

(** The store writer, on any batch of documents at the end of the heap:
    an empty batch costs nothing (no clock reading, no call to the store);
    otherwise the objects before the batch are untouched, every document
    of the batch keeps its other fields, in their order and with their
    values, and has the fields [createdAt], [updatedAt] and [_id]
    afterwards, whether the store accepts the batch or raises. *)
Theorem store_writer_frame (w : world) (h ds : list dict) (s : state) :
  save_documents_mongo w [] s = (Ok tt, s)
  /\ (heap s = h ++ ds -> ds <> [] ->
      exists ds',
        heap (save_documents_mongo w (seq (length h) (length ds)) s).2
        = h ++ ds'
        /\ map base_fields ds' = map base_fields ds
        /\ Forall (fun d => dict_has "createdAt" d = true
                            /\ dict_has "updatedAt" d = true
                            /\ dict_has "_id" d = true) ds'
        /\ store_calls
             (save_documents_mongo w (seq (length h) (length ds)) s).2
           = S (store_calls s)).
Proof.
  split; [done|]. intros Hh Hds.
  pose proof (save_documents_mongo_spec w h ds s Hh Hds) as Hsave.
  simpl in Hsave.
  set (now := DT.as_utc (clock w (clock_reads s))) in *.
  exists (stored_form w now (length h) ds).
  split; [|split; [|split]].
  - rewrite Hsave. by destruct (insert_fails w _ _).
  - apply map_stored_form. intros j d _. apply base_fields_stored.
  - apply Forall_forall. intros d' Hd'. unfold stored_form in Hd'.
    apply elem_of_lookup_imap in Hd' as (j & d & -> & _).
    unfold give_id, stamp. split; [|split].
    + apply dict_has_setdefault_other, dict_has_set_other,
        dict_has_setdefault.
    + apply dict_has_setdefault_other, dict_has_set.
    + apply dict_has_setdefault.
  - rewrite Hsave. by destruct (insert_fails w _ _).
Qed.

(** ** A run without the document store *)

Lemma same_store_refl s : same_store s s.
Proof. by split. Qed.

Lemma same_store_trans s1 s2 s3 :
  same_store s1 s2 -> same_store s2 s3 -> same_store s1 s3.
Proof. intros [H1 H2] [H3 H4]. split; congruence. Qed.

Section StoreOff.

Variable w : world.

Lemma scrape_page_store_off iso2 iso3 country path :
  preserves same_store (scrape_page w false iso2 iso3 country path).
Proof.
  intros s.
  destruct (fetch w (length (requests s)) (page_url path)) as [page|] eqn:Hf.
  - by rewrite (scrape_page_ok _ _ _ _ _ _ page).
  - by rewrite scrape_page_fails.
Qed.

Lemma walk_store_off iso2 iso3 country fuel cur :
  preserves same_store (walk w false iso2 iso3 country fuel cur).
Proof.
  revert cur. induction fuel as [|fuel IH]; intros [[|c p]|];
    try (apply preserves_ret, same_store_refl).
  - apply preserves_out_of_fuel, same_store_refl.
  - rewrite walk_unfold by done.
    apply preserves_bind;
      [apply same_store_trans | apply scrape_page_store_off | apply IH].
Qed.

Lemma scrape_country_store_off fuel href label :
  preserves same_store (scrape_country w fuel href label false).
Proof.
  unfold scrape_country.
  apply preserves_bind; [apply same_store_trans | |].
  { intros s.
    by destruct (lookup_iso_state w (derive_country_name href label) s)
      as [-> | ->]. }
  intros [[iso2 iso3] matched].
  apply preserves_bind;
    [apply same_store_trans | apply preserves_gets, same_store_refl |].
  intros L. apply preserves_bind; [apply same_store_trans | |].
  { intros s. by destruct (should_scrape_state w iso2 L s) as [-> | ->]. }
  intros [ok reason]. destruct ok; simpl;
    [|apply preserves_ret, same_store_refl].
  unfold scrape_from.
  apply preserves_bind; [apply same_store_trans | apply walk_store_off |].
  intros _. destruct iso2 as [[|c code]|];
    try (apply preserves_ret, same_store_refl).
  intros s. by unfold utcnow.
Qed.

Lemma scrape_all_store_off fuel links :
  preserves same_store (scrape_all w fuel false links).
Proof.
  unfold scrape_all.
  apply preserves_for_each; [apply same_store_refl | apply same_store_trans |].
  intros link.
  apply preserves_catch;
    [apply same_store_trans | apply scrape_country_store_off |].
  intros _. apply preserves_ret, same_store_refl.
Qed.

End StoreOff.

(** When the document store cannot be reached at the start, the run goes
    on without it and never calls it, however the run ends. *)
Theorem store_off_never_called (w : world) (fuel : nat) (s : state) :
  mongo_ping w = false ->
  store (main w fuel s).2 = store s
  /\ store_calls (main w fuel s).2 = store_calls s.
Proof.
  intros Hping. rewrite main_unfold, Hping.
  destruct (freshness_file s) as [[|m]|]; [done| |];
    (destruct (fetch w _ _) as [page|]; [|done]);
    unfold mbind, M_bind;
    pose proof (scrape_all_store_off w fuel (links_of page) (started s))
      as [H1 H2];
    destruct (scrape_all _ _ _ _ _) as [[[]|e|] s1]; simpl in *;
    try rewrite finish_spec; try done;
    by destruct (all_docs s1).
Qed.

Lemma store_off_never_called_witness :
  store (main (n_world None false false) 5 initial_state).2
  = store initial_state
  /\ store_calls (main (n_world None false false) 5 initial_state).2
     = store_calls initial_state.
Proof.
  apply (store_off_never_called (n_world None false false) 5 initial_state).
  reflexivity.
Defined.

(** ** The walk: pauses, cycles, and what it leaves alone *)

(** Along a chain the walk pauses one second after every page it has
    processed, and not after a fetch that failed. *)
Theorem walk_pauses_per_page (w : world) (coll : bool)
    (iso2 iso3 : option string) (country : string) (cur : option string)
    (pages : list (string * soup)) (e : ending) (fuel : nat) (s : state) :
  chain w (length (requests s)) cur pages e ->
  turns pages e <= fuel ->
  slept (walk w coll iso2 iso3 country fuel cur s).2
  = slept s + length pages.
Proof.
  remember (length (requests s)) as n eqn:Hn. intros Hchain.
  revert fuel s Hn.
  induction Hchain as [n cur Hcur | n path Hpath Hfetch
                      | n path page rest e Hpath Hfetch Hrest IH];
    intros fuel s Hn Hfuel.
  - rewrite walk_absent by done. simpl. lia.
  - destruct fuel as [|fuel]; [unfold turns in Hfuel; simpl in Hfuel; lia|].
    rewrite walk_unfold by done. unfold mbind, M_bind. subst n.
    rewrite scrape_page_fails by done. simpl. lia.
  - destruct fuel as [|fuel]; [unfold turns in Hfuel; simpl in Hfuel; lia|].
    rewrite walk_unfold by done. unfold mbind, M_bind. subst n.
    rewrite (scrape_page_ok _ _ _ _ _ _ page) by done.
    rewrite IH.
    + simpl. lia.
    + simpl. rewrite List.length_app. simpl. lia.
    + unfold turns in *. simpl in Hfuel. lia.
Qed.

Lemma walk_pauses_per_page_witness :
  slept (walk (n_world None true false) true (Some "NN") (Some "NNN") "n" 3
           (Some "/n_swift_codes.html") initial_state).2
  = slept initial_state
    + length [(n_path 1, n_page 1); (n_path 2, n_page 2);
              (n_path 3, n_page 3)].
Proof.
  apply (walk_pauses_per_page (n_world None true false) true
           (Some "NN") (Some "NNN") "n" (Some "/n_swift_codes.html")
           [(n_path 1, n_page 1); (n_path 2, n_page 2); (n_path 3, n_page 3)]
           Finished 3 initial_state).
  - apply (chain_page _ _ (n_path 1) (n_page 1));
      [discriminate | reflexivity |].
    apply (chain_page _ _ (n_path 2) (n_page 2));
      [discriminate | reflexivity |].
    apply (chain_page _ _ (n_path 3) (n_page 3));
      [discriminate | reflexivity |].
    apply chain_finished. reflexivity.
  - unfold turns. simpl. lia.
Defined.

(** The loop has no bound of its own: on a page that names itself as its
    next page the walk never ends. Whatever the number of turns allowed,
    it uses them all, each on one more request of that page. *)
Theorem cyclic_chain_never_ends (w : world) (coll : bool)
    (iso2 iso3 : option string) (country path : string) (page : soup)
    (fuel : nat) (s : state) :
  path <> "" ->
  page_next page = Some path ->
  (forall n, fetch w n (page_url path) = Some page) ->
  (walk w coll iso2 iso3 country fuel (Some path) s).1 = OutOfFuel
  /\ requests (walk w coll iso2 iso3 country fuel (Some path) s).2
     = requests s ++ replicate fuel (page_url path).
Proof.
  intros Hpath Hnext Hfetch. revert s.
  induction fuel as [|fuel IH]; intros s.
  - destruct path; [done|]. simpl. by rewrite app_nil_r.
  - rewrite walk_unfold by done. unfold mbind, M_bind.
    rewrite (scrape_page_ok _ _ _ _ _ _ page) by apply Hfetch.
    rewrite Hnext.
    destruct (IH (after_page w coll (page_url path)
                    (page_docs iso2 iso3 country path page) s))
      as [Ho Hr].
    split; [done|]. rewrite Hr. simpl. by rewrite <- app_assoc.
Qed.

Lemma cyclic_chain_never_ends_witness :
  (walk loop_world false None None "loop" 7 (Some "/loop_swift_codes.html")
     initial_state).1 = OutOfFuel
  /\ requests (walk loop_world false None None "loop" 7
                 (Some "/loop_swift_codes.html") initial_state).2
     = requests initial_state
       ++ replicate 7 (page_url "/loop_swift_codes.html").
Proof.
  apply (cyclic_chain_never_ends loop_world false None None "loop"
           "/loop_swift_codes.html" loop_page 7 initial_state).
  - discriminate.
  - reflexivity.
  - intros n. reflexivity.
Defined.

(** Whatever happens to the partitions of a run, what was accumulated
    before stays: the accumulator keeps its earlier references in their
    order, and the objects already on the heap are not changed. *)
Theorem accumulator_is_append_only (w : world) (fuel : nat) (coll : bool)
    (links : list (string * string)) (s : state) :
  take (length (all_docs s)) (all_docs (scrape_all w fuel coll links s).2)
  = all_docs s
  /\ take (length (heap s)) (heap (scrape_all w fuel coll links s).2)
     = heap s
  /\ data_file (scrape_all w fuel coll links s).2 = data_file s
  /\ freshness_file (scrape_all w fuel coll links s).2 = freshness_file s.
Proof.
  destruct (scrape_all_advances w coll fuel links s)
    as (ds & [Hh Ha] & _ & Hd & Hl & _).
  rewrite Hh, Ha, !take_app_length. done.
Qed.

(** ** The normal form of a name *)

Section NormalForm.

Import PyStr.

Abbreviation sp := (" "%char).

Lemma lstrip_suffix p l : exists pre, l = pre ++ lstrip p l.
Proof.
  induction l as [|c l [pre IH]]; [by exists []|]. simpl.
  destruct (p c); [|by exists []].
  exists (c :: pre). simpl. by rewrite <- IH.
Qed.

Lemma lstrip_head p l c l' : lstrip p l = c :: l' -> p c = false.
Proof.
  induction l as [|c0 l IH]; simpl; [done|].
  destruct (p c0) eqn:Hc; [done|]. by intros [= <- <-].
Qed.

Lemma strip_by_edges p l : edges_ok p (strip_by p l) = true.
Proof.
  apply edges_ok_true. unfold strip_by, rstrip.
  set (a := lstrip p l).
  destruct (lstrip p (rev a)) as [|y b] eqn:Hb; [by left|]. right.
  pose proof (lstrip_head _ _ _ _ Hb) as Hy.
  destruct (lstrip_suffix p (rev a)) as [pre Hpre]. rewrite Hb in Hpre.
  split.
  - apply (f_equal (@rev ascii)) in Hpre.
    rewrite rev_involutive, rev_app_distr in Hpre.
    destruct (rev (y :: b)) as [|c l'] eqn:Hrev.
    { apply (f_equal (@length ascii)) in Hrev.
      rewrite length_rev in Hrev. done. }
    exists c, l'. split; [done|].
    simpl in Hpre. unfold a in Hpre. by eapply lstrip_head.
  - exists (rev b), y. by split.
Qed.

Lemma lstrip_Forall (P : ascii -> Prop) p l :
  Forall P l -> Forall P (lstrip p l).
Proof.
  intros H. destruct (lstrip_suffix p l) as [pre Hpre].
  rewrite Hpre in H. by apply Forall_app in H as [_ H].
Qed.

Lemma strip_by_Forall (P : ascii -> Prop) p l :
  Forall P l -> Forall P (strip_by p l).
Proof.
  intros H. unfold strip_by, rstrip.
  apply Forall_rev, lstrip_Forall, Forall_rev, lstrip_Forall, H.
Qed.

Lemma join_split_head c l :
  isspace c = false ->
  exists rest, join [sp] (split_ws (c :: l)) = c :: rest.
Proof.
  intros Hc. unfold split_ws. cbn [words]. destruct (words l) as [w ws].
  rewrite Hc. cbn [cons_word].
  destruct (join_starts (c :: w) ws) as [rest ->]. by exists (w ++ rest).
Qed.

Lemma join_split_last l x :
  isspace x = false ->
  exists j, join [sp] (split_ws (l ++ [x])) = j ++ [x].
Proof.
  intros Hx. induction l as [|c l [j IH]].
  - exists []. unfold split_ws. simpl. by rewrite Hx.
  - revert IH. unfold split_ws. simpl.
    destruct (words (l ++ [x])) as [w ws]. destruct (isspace c).
    + intros IH. exists j. by destruct w.
    + destruct w as [|c' w]; simpl.
      * destruct ws as [|w2 ws]; intros IH.
        { by destruct j. }
        exists (c :: sp :: j).
        change (join [sp] ([c] :: w2 :: ws))
          with ([c] ++ sp :: join [sp] (w2 :: ws)).
        by rewrite IH.
      * destruct ws as [|w2 ws]; intros IH.
        { exists (c :: j). simpl in *. by rewrite IH. }
        exists (c :: j).
        change (join [sp] ((c :: c' :: w) :: w2 :: ws))
          with (c :: join [sp] ((c' :: w) :: w2 :: ws)).
        by rewrite IH.
Qed.

Lemma trim_set_free c :
  mem trim_set c = false -> c <> sp /\ is_slash_dot c = false.
Proof.
  unfold mem, trim_set, is_slash_dot. simpl.
  destruct (Ascii.eqb_spec c "/"); [done|].
  destruct (Ascii.eqb_spec c "_"); [done|].
  destruct (Ascii.eqb_spec c "."); [done|].
  destruct (Ascii.eqb_spec c " "); [done|]. done.
Qed.

(** A second pass always gives a text with clean edges. *)
Lemma normalize_chars_twice_clean l :
  edge_clean_chars (normalize_chars (normalize_chars l)) = true.
Proof.
  destruct (normalize_chars_shape l) as (ws & Hr & Hws & Hp).
  set (r := normalize_chars l) in *.
  assert (Hsp : edges_ok isspace r = true) by (rewrite Hr; by apply join_edges).
  assert (Hchars : Forall (fun c => isspace c = false \/ c = sp) r).
  { rewrite Hr. apply join_Forall; [by right|].
    eapply Forall_impl; [exact Hws|]. intros w' [_ Hw'].
    eapply Forall_impl; [exact Hw'|]. by left. }
  unfold normalize_chars at 1. rewrite (strip_fix isspace r Hsp).
  set (t := strip_by (mem trim_set) r).
  assert (Ht : edges_ok (mem trim_set) t = true) by apply strip_by_edges.
  assert (Htc : Forall (fun c => isspace c = false \/ c = sp) t)
    by by apply strip_by_Forall.
  rewrite (replace_plain t) by by apply strip_by_Forall.
  change (edges_ok is_slash_dot (join [sp] (split_ws t)) = true).
  apply edges_ok_true.
  apply edges_ok_true in Ht as [->|[(c & l1 & Hc & Hpc) (l2 & x & Hx & Hpx)]];
    [by left|]. right.
  apply trim_set_free in Hpc as [Hc1 Hc2], Hpx as [Hx1 Hx2].
  rewrite Forall_forall in Htc.
  assert (Hcs : isspace c = false).
  { destruct (Htc c) as [|]; [rewrite Hc; by left | done | done]. }
  assert (Hxs : isspace x = false).
  { destruct (Htc x) as [|]; [|done|done].
    rewrite Hx. apply elem_of_app. right. by left. }
  split.
  - rewrite Hc. destruct (join_split_head c l1 Hcs) as [rest ->]. eauto.
  - rewrite Hx. destruct (join_split_last l2 x Hxs) as [j ->]. eauto.
Qed.

End NormalForm.

(** The normal form of a name has no underscore and no hyphen, and its
    white space is in order: splitting it at white space and joining the
    words with single spaces gives it back, so it has no white space at
    its ends, no run of spaces and no white space other than the space. *)
Theorem normalize_shape (x : string) :
  Forall plain (PyStr.chars (normalize_country_name x))
  /\ PyStr.str (PyStr.join [" "%char]
                 (PyStr.split_ws (PyStr.chars (normalize_country_name x))))
     = normalize_country_name x
  /\ PyStr.str (PyStr.strip_by PyStr.isspace
                 (PyStr.chars (normalize_country_name x)))
     = normalize_country_name x.
Proof.
  rewrite normalize_country_name_chars, chars_str.
  destruct (normalize_chars_shape (PyStr.chars x)) as (ws & Hr & Hws & Hp).
  split; [done|]. split.
  - rewrite Hr. by rewrite split_ws_join.
  - rewrite strip_fix; [done|]. rewrite Hr. by apply join_edges.
Qed.

(** Normalising twice always reaches a fixed point: a third pass changes
    nothing, for every text. *)
Theorem normalize_stable_after_two (x : string) :
  normalize_country_name
    (normalize_country_name (normalize_country_name x))
  = normalize_country_name (normalize_country_name x).
Proof.
  rewrite !normalize_country_name_chars, !chars_str. f_equal.
  apply normalize_chars_again, normalize_chars_twice_clean.
Qed.
